(** * COVID-19 Vaccination Dashboard: a shallow embedding of [app.py]

    The dashboard is one Streamlit script, re-executed from top to bottom on
    every interaction.  It loads a vaccination table, filters it by location
    and date range, shows four metric cards and a progress bar, and draws
    charts from the filtered rows.

    The embedding has three layers:
    - the table operations of the script as pure functions on lists of rows
      (boolean-mask selection is [filter], [iloc[-1]] is the last element,
      [melt], [sort_values], [groupby(...).tail(1)], [nlargest]);
    - the script itself, in a small writer/exception monad whose trace is the
      sequence of Streamlit calls and whose outcome says how the run ended;
    - the frames of lines 62-68 as objects in a store, to state which objects
      the filtering step touches.

    Modelling decisions, stated once:
    - the [date] column is a [datetime64[ns]] value, kept as the number of
      nanoseconds since the epoch; [.dt.date] is the floor division by the
      length of a day, and the dates returned by the date widget are day
      numbers on the same scale;
    - the count columns are integers (the script formats them with [int(...)]);
    - the percentage column is a binary64 float, with Python's comparison and
      division on it;
    - strings are compared as byte sequences, which for UTF-8 text is the
      code-point order Python uses. *)

From Stdlib Require Import ZArith List String Ascii Bool Lia Floats.
From Stdlib Require Import Sorting.Sorted Sorting.Permutation.
Import ListNotations.
Local Open Scope Z_scope.

(** ** Data model *)

Record Row : Type := mkRow {
  location : string;
  iso_code : string;
  date : Z;
  total_vaccinations : Z;
  people_vaccinated : Z;
  people_fully_vaccinated : Z;
  total_boosters : Z;
  people_fully_vaccinated_per_hundred : float;
  daily_vaccinations : Z
}.

Definition DataFrame : Type := list Row.

(** ** Generic table helpers *)

(** Insertion into a list ordered by [before]; the new element goes in front
    of the first element it may precede. *)
Fixpoint insert_by {A : Type} (before : A -> A -> bool) (x : A) (l : list A) : list A :=
  match l with
  | [] => [x]
  | y :: l' => if before x y then x :: y :: l' else y :: insert_by before x l'
  end.

(** Sorting by repeated insertion from the right: stable for a [before] that
    holds on equal keys. *)
Definition sort_by {A : Type} (before : A -> A -> bool) (l : list A) : list A :=
  fold_right (insert_by before) [] l.

(** Python's [x in l] on strings. *)
Definition str_in (s : string) (l : list string) : bool :=
  existsb (String.eqb s) l.

(** [Series.unique()]: the distinct values in order of first appearance. *)
Fixpoint unique (l : list string) : list string :=
  match l with
  | [] => []
  | x :: l' => x :: filter (fun y => negb (String.eqb y x)) (unique l')
  end.

(** Python's [sorted] on a list of strings. *)
Definition sorted (l : list string) : list string :=
  sort_by String.leb l.

(** [Series.min()] and [Series.max()] of the date column; [None] stands for
    [NaT], the result on an empty column. *)
Definition series_min (l : list Z) : option Z :=
  match l with
  | [] => None
  | x :: l' => Some (fold_left Z.min l' x)
  end.

Definition series_max (l : list Z) : option Z :=
  match l with
  | [] => None
  | x :: l' => Some (fold_left Z.max l' x)
  end.

(** [iloc[-1]]: the last row; [None] stands for the [IndexError] raised on an
    empty frame. *)
Fixpoint iloc_last (t : DataFrame) : option Row :=
  match t with
  | [] => None
  | r :: t' => match t' with [] => Some r | _ :: _ => iloc_last t' end
  end.

(** ** Dates *)

Definition ns_per_day : Z := 86400000000000.

(** [Timestamp.date()] and [.dt.date]: the calendar day of a timestamp. *)
Definition dt_date (ts : Z) : Z := ts / ns_per_day.

(** ** Sidebar (lines 28-59) *)

Definition non_country_aggregates : list string :=
  ["World"; "Europe"; "Asia"; "Africa"; "North America";
   "South America"; "European Union"; "High income";
   "Low income"; "Lower middle income"; "Upper middle income"]%string.

Definition country_list (df : DataFrame) : list string :=
  sorted (filter (fun loc => negb (str_in loc non_country_aggregates))
                 (unique (map location df))).

Definition location_options (df : DataFrame) : list string :=
  "Worldwide"%string :: country_list df.

Definition min_date (df : DataFrame) : option Z :=
  option_map dt_date (series_min (map date df)).

Definition max_date (df : DataFrame) : option Z :=
  option_map dt_date (series_max (map date df)).

Definition location_to_filter (selected_option : string) : string :=
  if String.eqb selected_option "Worldwide" then "World"%string else selected_option.

(** ** Filtering (lines 61-68) *)

Definition location_mask (loc : string) (r : Row) : bool :=
  String.eqb (location r) loc.

Definition date_mask (start_date end_date : Z) (r : Row) : bool :=
  (start_date <=? dt_date (date r)) && (dt_date (date r) <=? end_date).

Definition filtered_df (df : DataFrame) (selected_option : string)
    (start_date end_date : Z) : DataFrame :=
  let filtered := filter (location_mask (location_to_filter selected_option)) df in
  filter (date_mask start_date end_date) filtered.

(** ** Key metrics (lines 78-96) *)

Definition latest_data (filtered : DataFrame) : option Row :=
  iloc_last filtered.

(** Python's two-argument [min]: the second argument is returned only when it
    compares strictly below the first. *)
Definition py_min (a b : float) : float :=
  if PrimFloat.ltb b a then b else a.

Definition progress_arg (coverage : float) : float :=
  py_min (PrimFloat.div coverage 100%float) 1%float.

(** ** Comparison tab (lines 124-143) *)

Record MeltedRow : Type := mkMelted {
  m_location : string;
  Metric : string;
  Count : Z
}.

(** A value column: its name and its accessor. *)
Definition Column : Type := (string * (Row -> Z))%type.

(** [DataFrame.melt(id_vars='location', var_name='Metric', value_name='Count')]
    on the frame restricted to [location] and the columns [value_vars]: one
    block of records per value column, each block in row order. *)
Definition melt (value_vars : list Column) (t : DataFrame) : list MeltedRow :=
  flat_map (fun c : Column =>
              map (fun r => mkMelted (location r) (fst c) (snd c r)) t)
           value_vars.

Definition comparison_cols : list Column :=
  [("people_vaccinated"%string, people_vaccinated);
   ("people_fully_vaccinated"%string, people_fully_vaccinated)].

(** [iloc[[-1]]]: the one-row frame holding the last row. *)
Definition iloc_last_frame (t : DataFrame) : option DataFrame :=
  option_map (fun r => [r]) (iloc_last t).

Definition latest_comparison (filtered : DataFrame) : option (list MeltedRow) :=
  option_map (melt comparison_cols) (iloc_last_frame filtered).

(** ** Global view (lines 145-187) *)

Definition subset_mask (end_date : Z) (r : Row) : bool :=
  (dt_date (date r) <=? end_date) && negb (str_in (location r) non_country_aggregates).

Definition subset_df (df : DataFrame) (end_date : Z) : DataFrame :=
  filter (subset_mask end_date) df.

(** [sort_values('date')]: ascending by timestamp.  pandas' default sort is
    not stable; this model fixes one order among equal timestamps, and the
    results below use only that the output is an ordered rearrangement. *)
Definition sort_values_date (t : DataFrame) : DataFrame :=
  sort_by (fun a b => date a <=? date b) t.

(** [groupby('location').tail(1)]: the last row of every group, in the order
    of the frame. *)
Fixpoint groupby_location_tail1 (t : DataFrame) : DataFrame :=
  match t with
  | [] => []
  | r :: t' =>
      if existsb (location_mask (location r)) t'
      then groupby_location_tail1 t'
      else r :: groupby_location_tail1 t'
  end.

Definition latest_country_data (df : DataFrame) (end_date : Z) : DataFrame :=
  groupby_location_tail1 (sort_values_date (subset_df df end_date)).

(** [nlargest(n, 'total_vaccinations')] with the default [keep='first']: the
    first [n] rows of the frame ordered by decreasing value, equal values in
    their order of appearance. *)
Definition nlargest (n : nat) (t : DataFrame) : DataFrame :=
  firstn n (sort_by (fun a b => total_vaccinations b <=? total_vaccinations a) t).

Definition top_10 (latest : DataFrame) : DataFrame :=
  nlargest 10 latest.

(** ** The script as a program

    A run produces the sequence of Streamlit calls it made and ends in one of
    three ways: it reaches the end of the script, [st.stop()] halts it, or an
    exception nobody catches ends it. *)

Inductive Exception : Type :=
| FileNotFoundError
| IndexError
| OtherError (name : string).

(** What [pd.read_parquet('cleaned_vaccinations.parquet')] does in this run. *)
Inductive ReadResult : Type :=
| ReadOk (df : DataFrame)
| ReadRaises (e : Exception).

(** What the environment supplies to one run: the file system and the values
    the two sidebar widgets return.  A run is one in which both widgets
    return, the date widget with a pair of days. *)
Record Inputs : Type := mkInputs {
  read_parquet : ReadResult;
  selectbox_value : string;
  date_input_value : Z * Z
}.

Inductive Figure : Type :=
| px_area (data : DataFrame) (x y : string)
| px_line (data : DataFrame) (x y : string)
| px_bar_metric (data : list MeltedRow) (selected_option : string)
| px_bar_top10 (data : DataFrame) (end_date : Z)
| px_choropleth (data : DataFrame).

Inductive MetricValue : Type :=
| CountValue (n : Z)
| PercentValue (p : float).

Inductive Call : Type :=
| set_page_config
| st_error (msg : string)
| sidebar_header (text : string)
| sidebar_selectbox (label : string) (options : list string)
| sidebar_date_input (label : string) (lo hi : option Z)
| st_title
| st_markdown_filters (selected_option : string) (start_date end_date : Z)
| st_markdown_rule
| st_warning (msg : string)
| st_columns (n : nat)
| st_metric (label : string) (value : MetricValue)
| st_progress (value : float)
| st_tabs (names : list string)
| st_subheader (text : string)
| st_plotly_chart (fig : Figure)
| st_info (msg : string).

Inductive Outcome (A : Type) : Type :=
| Done (a : A)
| Stopped
| Raised (e : Exception).

Arguments Done {A} a.
Arguments Stopped {A}.
Arguments Raised {A} e.

Definition Script (A : Type) : Type := (list Call * Outcome A)%type.

Definition ret {A : Type} (a : A) : Script A := ([], Done a).

Definition bind {A B : Type} (m : Script A) (k : A -> Script B) : Script B :=
  match m with
  | (tr, Done a) => let (tr', o) := k a in (tr ++ tr', o)
  | (tr, Stopped) => (tr, Stopped)
  | (tr, Raised e) => (tr, Raised e)
  end.

Declare Scope script_scope.
Delimit Scope script_scope with script.
Notation "x <- m ;; k" := (bind m (fun x => k))
  (at level 61, m at next level, right associativity) : script_scope.
Notation "m ;; k" := (bind m (fun _ => k))
  (at level 61, right associativity) : script_scope.
Local Open Scope script_scope.

Definition call (c : Call) : Script unit := ([c], Done tt).

Definition st_stop {A : Type} : Script A := ([], Stopped).

Definition raise {A : Type} (e : Exception) : Script A := ([], Raised e).

(** [try: body / except FileNotFoundError: handler]. *)
Definition except_FileNotFoundError {A : Type} (body handler : Script A) : Script A :=
  match body with
  | (tr, Raised FileNotFoundError) => let (tr', o) := handler in (tr ++ tr', o)
  | _ => body
  end.

Definition trace {A : Type} (m : Script A) : list Call := fst m.
Definition outcome {A : Type} (m : Script A) : Outcome A := snd m.

Definition pd_read_parquet (i : Inputs) : Script DataFrame :=
  match read_parquet i with
  | ReadOk df => ret df
  | ReadRaises e => raise e
  end.

(** Lines 15-24. *)
Definition load_data (i : Inputs) : Script DataFrame :=
  except_FileNotFoundError
    (pd_read_parquet i)
    (call (st_error "Data file not found. Please run the data preparation notebook first.") ;;
     st_stop).

Definition sidebar_selectbox_widget (label : string) (options : list string)
    (i : Inputs) : Script string :=
  ([sidebar_selectbox label options], Done (selectbox_value i)).

Definition sidebar_date_input_widget (label : string) (lo hi : option Z)
    (i : Inputs) : Script (Z * Z) :=
  ([sidebar_date_input label lo hi], Done (date_input_value i)).

Definition iloc_last_or_raise (t : DataFrame) : Script Row :=
  match iloc_last t with
  | Some r => ret r
  | None => raise IndexError
  end.

(** [DataFrame.empty]. *)
Definition empty (t : DataFrame) : bool :=
  match t with
  | [] => true
  | _ :: _ => false
  end.

(** Lines 78-96. *)
Definition key_metrics (filtered : DataFrame) : Script unit :=
  latest <- iloc_last_or_raise filtered ;;
  call (st_columns 4) ;;
  call (st_metric "Total Vaccinations" (CountValue (total_vaccinations latest))) ;;
  call (st_metric "People Fully Vaccinated" (CountValue (people_fully_vaccinated latest))) ;;
  call (st_metric "Total Boosters" (CountValue (total_boosters latest))) ;;
  let coverage := people_fully_vaccinated_per_hundred latest in
  call (st_metric "Fully Vaccinated %" (PercentValue coverage)) ;;
  call (st_progress (progress_arg coverage)).

(** Lines 103-122. *)
Definition trends_tab (filtered : DataFrame) : Script unit :=
  call (st_subheader "Vaccination Trends Over Time") ;;
  call (st_plotly_chart (px_area filtered "date" "total_vaccinations")) ;;
  call (st_plotly_chart (px_line filtered "date" "daily_vaccinations")).

(** Lines 124-143. *)
Definition comparisons_tab (filtered : DataFrame) (selected_option : string) : Script unit :=
  call (st_subheader "Vaccination Breakdown") ;;
  match latest_comparison filtered with
  | Some melted => call (st_plotly_chart (px_bar_metric melted selected_option))
  | None => raise IndexError
  end.

(** Lines 145-190. *)
Definition global_view_tab (df : DataFrame) (selected_option : string)
    (end_date : Z) : Script unit :=
  if String.eqb selected_option "Worldwide" then
    call (st_subheader "Global Comparisons") ;;
    let latest := latest_country_data df end_date in
    call (st_plotly_chart (px_bar_top10 (top_10 latest) end_date)) ;;
    call (st_subheader "Global Vaccination Coverage Map") ;;
    call (st_plotly_chart (px_choropleth latest))
  else
    call (st_info "Select 'Worldwide' in the sidebar to view global comparisons and rankings.").

(** The whole of [app.py]. *)
Definition app (i : Inputs) : Script unit :=
  call set_page_config ;;
  df <- load_data i ;;
  call (sidebar_header "Filter Options") ;;
  selected_option <- sidebar_selectbox_widget "Select a Location" (location_options df) i ;;
  dates <- sidebar_date_input_widget "Select Date Range" (min_date df) (max_date df) i ;;
  let start_date := fst dates in
  let end_date := snd dates in
  let filtered := filtered_df df selected_option start_date end_date in
  call st_title ;;
  call (st_markdown_filters selected_option start_date end_date) ;;
  (if empty filtered
   then call (st_warning "No data available for the selected filters.") ;; st_stop
   else ret tt) ;;
  key_metrics filtered ;;
  call st_markdown_rule ;;
  call (st_tabs ["Trends"; "Comparisons"; "Global View"]%string) ;;
  trends_tab filtered ;;
  comparisons_tab filtered selected_option ;;
  global_view_tab df selected_option end_date.

(** Calls that show a key metric or a chart. *)
Definition shows_metric_or_chart (c : Call) : bool :=
  match c with
  | st_metric _ _ | st_progress _ | st_plotly_chart _ => true
  | _ => false
  end.

Definition shows_error (c : Call) : bool :=
  match c with
  | st_error _ => true
  | _ => false
  end.

(** ** Frames as objects (lines 61-68)

    Every frame the script holds is an object in a store; a reference is the
    object's position.  Boolean-mask selection and [.copy()] read their
    operand and put their result in a new object. *)

Module Store.

Definition ref : Type := nat.
Definition store : Type := list DataFrame.

(** A step either fails on a dangling reference or returns a value and the
    store it leaves. *)
Definition M (A : Type) : Type := store -> option (A * store).

Definition mret {A : Type} (a : A) : M A := fun s => Some (a, s).

Definition mbind {A B : Type} (m : M A) (k : A -> M B) : M B :=
  fun s => match m s with
           | Some (a, s') => k a s'
           | None => None
           end.

Definition new_frame (t : DataFrame) : M ref :=
  fun s => Some (List.length s, s ++ [t]).

Definition read (x : ref) : M DataFrame :=
  fun s => match nth_error s x with
           | Some t => Some (t, s)
           | None => None
           end.

(** [x[mask]] *)
Definition getitem_mask (x : ref) (mask : Row -> bool) : M ref :=
  mbind (read x) (fun t => new_frame (filter mask t)).

(** [x.copy()] *)
Definition copy (x : ref) : M ref :=
  mbind (read x) (fun t => new_frame t).

(** Lines 62-68, from the reference [df] of the cached dataset to the
    reference bound to [filtered_df]. *)
Definition filter_step (df : ref) (selected_option : string)
    (start_date end_date : Z) : M ref :=
  mbind (getitem_mask df (location_mask (location_to_filter selected_option)))
    (fun selected =>
  mbind (copy selected)
    (fun filtered =>
  getitem_mask filtered (date_mask start_date end_date))).

End Store.

(** ** Sample data *)

(** The timestamp of midnight on day [n]. *)
Definition midnight (n : Z) : Z := n * ns_per_day.

Definition sample_row (loc : string) (day total : Z) (coverage : float) : Row :=
  mkRow loc "" (midnight day) total total 0 0 coverage 0.

Definition sample_df : DataFrame :=
  [ sample_row "World" 1 100 10%float;
    sample_row "India" 1 40 5%float;
    sample_row "World" 2 250 20%float;
    sample_row "Chile" 2 30 120%float;
    sample_row "India" 3 90 12%float;
    sample_row "World" 3 400 35%float;
    sample_row "Asia" 3 300 30%float ].

Definition sample_inputs : Inputs :=
  mkInputs (ReadOk sample_df) "Worldwide" (1, 3).

(** ** Properties of tables used in the statements *)

(** The invariant of the source file: within every location, rows appear in
    non-decreasing order of timestamp. *)
Definition non_decreasing_per_location (df : DataFrame) : Prop :=
  forall loc : string,
    StronglySorted Z.le (map date (filter (location_mask loc) df)).

(** The same invariant as a check that runs: no row is followed by an earlier
    row of its own location. *)
Fixpoint non_decreasing_per_locationb (df : DataFrame) : bool :=
  match df with
  | [] => true
  | r :: rest =>
      forallb (fun r' => implb (location_mask (location r) r') (date r <=? date r')) rest
      && non_decreasing_per_locationb rest
  end.

(** A row of [t] whose timestamp no row of [t] exceeds. *)
Definition has_max_date (t : DataFrame) (r : Row) : Prop :=
  In r t /\ forall r' : Row, In r' t -> date r' <= date r.

(** Reading the global view as restricted to the whole selected window: every
    selected record lies in [start_date, end_date] and is the latest of its
    location there. *)
Definition latest_within_window (df : DataFrame) (start_date end_date : Z) : Prop :=
  forall r : Row,
    In r (latest_country_data df end_date) ->
    start_date <= dt_date (date r) <= end_date
    /\ forall r' : Row,
         In r' df -> location r' = location r ->
         start_date <= dt_date (date r') <= end_date ->
         date r' <= date r.

(** The filtered table of a run on the loaded dataset [df]: [filtered_df] at
    the values the two widgets returned. *)
Definition run_filtered (i : Inputs) (df : DataFrame) : DataFrame :=
  filtered_df df (selectbox_value i) (fst (date_input_value i))
              (snd (date_input_value i)).

Definition no_data_warning : Call :=
  st_warning "No data available for the selected filters.".

(** The four shapes of a run: the file is missing, reading it fails otherwise,
    the filter leaves nothing, or the dashboard is drawn.  In the last shape
    [shown] is everything up to the third tab. *)
Inductive RunShape (i : Inputs) : Prop :=
| run_missing_file :
    read_parquet i = ReadRaises FileNotFoundError ->
    app i = ([ set_page_config;
               st_error "Data file not found. Please run the data preparation notebook first." ],
             Stopped) ->
    RunShape i
| run_read_error (e : Exception) :
    read_parquet i = ReadRaises e ->
    e <> FileNotFoundError ->
    app i = ([set_page_config], Raised e) ->
    RunShape i
| run_no_data (df : DataFrame) :
    read_parquet i = ReadOk df ->
    run_filtered i df = [] ->
    app i = ([ set_page_config;
               sidebar_header "Filter Options";
               sidebar_selectbox "Select a Location" (location_options df);
               sidebar_date_input "Select Date Range" (min_date df) (max_date df);
               st_title;
               st_markdown_filters (selectbox_value i) (fst (date_input_value i))
                                   (snd (date_input_value i));
               no_data_warning ],
             Stopped) ->
    RunShape i
| run_dashboard (df : DataFrame) (latest : Row) (shown : list Call) :
    read_parquet i = ReadOk df ->
    run_filtered i df <> [] ->
    latest_data (run_filtered i df) = Some latest ->
    app i = (shown ++ trace (global_view_tab df (selectbox_value i)
                                             (snd (date_input_value i))),
             Done tt) ->
    Forall (fun c => forall msg, c <> st_warning msg /\ c <> st_error msg /\ c <> st_info msg) shown ->
    Forall (fun c => forall d e, c <> st_plotly_chart (px_bar_top10 d e)
                                 /\ c <> st_plotly_chart (px_choropleth d)) shown ->
    RunShape i.

(** * Results *)

(** ** Boolean masks *)

Lemma filter_filter {A : Type} (f g : A -> bool) (l : list A) :
  filter g (filter f l) = filter (fun x => f x && g x) l.
Proof.
  induction l as [|x l IH]; simpl; [reflexivity|].
  destruct (f x); simpl; [destruct (g x)|]; now rewrite IH.
Qed.

Lemma location_mask_true (loc : string) (r : Row) :
  location_mask loc r = true <-> location r = loc.
Proof. unfold location_mask. apply String.eqb_eq. Qed.

Lemma date_mask_true (s e : Z) (r : Row) :
  date_mask s e r = true <-> s <= dt_date (date r) <= e.
Proof. unfold date_mask. rewrite andb_true_iff, !Z.leb_le. tauto. Qed.

Lemma location_to_filter_worldwide :
  location_to_filter "Worldwide" = "World"%string.
Proof. reflexivity. Qed.

Lemma location_to_filter_country (selected_option : string) :
  selected_option <> "Worldwide"%string ->
  location_to_filter selected_option = selected_option.
Proof.
  intros H. unfold location_to_filter.
  destruct (String.eqb_spec selected_option "Worldwide"); [contradiction|reflexivity].
Qed.

(** C1.  The filtered table is the dataset restricted, in order and with
    multiplicity, to the rows whose location is the location being filtered
    on (the selected option, with "Worldwide" standing for the "World" rows)
    and whose calendar day lies in [start_date, end_date]; a row is in it
    exactly when it is such a row of the dataset. *)
Theorem filtered_df_exact (df : DataFrame) (selected_option : string)
    (start_date end_date : Z) :
  filtered_df df selected_option start_date end_date
  = filter (fun r => String.eqb (location r) (location_to_filter selected_option)
                     && ((start_date <=? dt_date (date r))
                         && (dt_date (date r) <=? end_date))) df
  /\ forall r : Row,
       In r (filtered_df df selected_option start_date end_date)
       <-> (In r df
            /\ location r = location_to_filter selected_option
            /\ start_date <= dt_date (date r) <= end_date).
Proof.
  split.
  - unfold filtered_df. apply filter_filter.
  - intros r. unfold filtered_df.
    rewrite !filter_In, location_mask_true, date_mask_true. tauto.
Qed.

Example filtered_df_sample :
  map total_vaccinations (filtered_df sample_df "Worldwide" 2 3) = [250; 400]
  /\ map total_vaccinations (filtered_df sample_df "India" 1 1) = [40]
  /\ filtered_df sample_df "Chile" 3 3 = [].
Proof. repeat split. Qed.

(** ** The last row *)

Lemma iloc_last_cons (r : Row) (t : DataFrame) :
  iloc_last (r :: t) = match t with [] => Some r | _ :: _ => iloc_last t end.
Proof. reflexivity. Qed.

Lemma iloc_last_some (t : DataFrame) :
  t <> [] -> exists r, iloc_last t = Some r.
Proof.
  induction t as [|x t IH]; [congruence|]. intros _.
  rewrite iloc_last_cons. destruct t as [|y t]; [now exists x|].
  apply IH. discriminate.
Qed.

Lemma iloc_last_In (t : DataFrame) (r : Row) :
  iloc_last t = Some r -> In r t.
Proof.
  induction t as [|x t IH]; [discriminate|].
  rewrite iloc_last_cons. destruct t as [|y t].
  - intros [= ->]. now left.
  - intros H. right. now apply IH.
Qed.

Lemma iloc_last_none (t : DataFrame) :
  iloc_last t = None <-> t = [].
Proof.
  split; [|now intros ->].
  destruct t as [|x t]; [reflexivity|]. intros H.
  destruct (iloc_last_some (x :: t)) as [r Hr]; [discriminate|congruence].
Qed.

(** In a frame ordered by timestamp the last row has the greatest one. *)
Lemma iloc_last_max_date (t : DataFrame) (r : Row) :
  StronglySorted Z.le (map date t) ->
  iloc_last t = Some r ->
  forall r' : Row, In r' t -> date r' <= date r.
Proof.
  induction t as [|x t IH]; [discriminate|].
  simpl map. intros Hs. inversion Hs as [|? ? Hs' Hall]; subst.
  rewrite iloc_last_cons. destruct t as [|y t].
  - intros [= ->] r' [->|[]]. lia.
  - intros Hlast r' [->|Hin].
    + rewrite Forall_forall in Hall. apply Hall, in_map.
      now apply iloc_last_In.
    + now apply IH.
Qed.

Lemma StronglySorted_map_filter {A B : Type} (R : B -> B -> Prop) (f : A -> B)
    (p : A -> bool) (l : list A) :
  StronglySorted R (map f l) -> StronglySorted R (map f (filter p l)).
Proof.
  induction l as [|x l IH]; simpl; [auto|].
  intros Hs. inversion Hs as [|? ? Hs' Hall]; subst.
  destruct (p x); simpl; [|auto].
  constructor; [auto|].
  rewrite Forall_forall in *. intros b Hb.
  apply in_map_iff in Hb as (a & <- & Ha).
  apply filter_In in Ha as [Ha _]. now apply Hall, in_map.
Qed.

Lemma ns_per_day_pos : 0 < ns_per_day.
Proof. reflexivity. Qed.

Lemma dt_date_mono (a b : Z) : a <= b -> dt_date a <= dt_date b.
Proof. intros H. unfold dt_date. apply Z.div_le_mono; [apply ns_per_day_pos|exact H]. Qed.

Lemma dt_date_midnight (n : Z) : dt_date (midnight n) = n.
Proof. unfold dt_date, midnight. apply Z.div_mul. discriminate. Qed.

(** The running check establishes the invariant. *)
Lemma non_decreasing_per_locationb_sound (df : DataFrame) :
  non_decreasing_per_locationb df = true -> non_decreasing_per_location df.
Proof.
  intros H loc. induction df as [|x df IH]; simpl; [constructor|].
  simpl in H. apply andb_true_iff in H as [Hx Hrest].
  destruct (location_mask loc x) eqn:Hloc; [|now apply IH].
  simpl. constructor; [now apply IH|].
  rewrite Forall_forall. intros d Hd.
  apply in_map_iff in Hd as (r' & <- & Hr').
  apply filter_In in Hr' as [Hin Hloc'].
  rewrite forallb_forall in Hx. specialize (Hx r' Hin).
  apply location_mask_true in Hloc, Hloc'.
  assert (Hm : location_mask (location x) r' = true)
    by (apply location_mask_true; congruence).
  rewrite Hm in Hx. simpl in Hx. now apply Z.leb_le.
Qed.

(** C2.  When the rows of every location appear in non-decreasing order of
    date in the dataset, a non-empty filtered table has a last row, and that
    row carries the maximum date of the filtered table: no row in range is
    later, by timestamp and hence by calendar day. *)
Theorem latest_data_max_date (df : DataFrame) (selected_option : string)
    (start_date end_date : Z) :
  non_decreasing_per_location df ->
  filtered_df df selected_option start_date end_date <> [] ->
  exists latest : Row,
    latest_data (filtered_df df selected_option start_date end_date) = Some latest
    /\ has_max_date (filtered_df df selected_option start_date end_date) latest
    /\ forall r' : Row,
         In r' (filtered_df df selected_option start_date end_date) ->
         dt_date (date r') <= dt_date (date latest).
Proof.
  intros Hmono Hne.
  destruct (iloc_last_some _ Hne) as [latest Hlast].
  exists latest. unfold latest_data.
  assert (Hmax : forall r', In r' (filtered_df df selected_option start_date end_date) ->
                            date r' <= date latest).
  { apply iloc_last_max_date; [|exact Hlast].
    unfold filtered_df. apply StronglySorted_map_filter, Hmono. }
  repeat split; auto using iloc_last_In.
  intros r' Hr'. apply dt_date_mono, Hmax, Hr'.
Qed.

Lemma latest_data_max_date_witness :
  exists latest : Row,
    latest_data (filtered_df sample_df "Worldwide" 1 3) = Some latest
    /\ has_max_date (filtered_df sample_df "Worldwide" 1 3) latest
    /\ forall r' : Row,
         In r' (filtered_df sample_df "Worldwide" 1 3) ->
         dt_date (date r') <= dt_date (date latest).
Proof.
  apply (latest_data_max_date sample_df "Worldwide" 1 3).
  - apply non_decreasing_per_locationb_sound. reflexivity.
  - discriminate.
Defined.

Example latest_data_sample :
  option_map total_vaccinations (latest_data (filtered_df sample_df "Worldwide" 1 3))
  = Some 400.
Proof. reflexivity. Qed.

(** Without the invariant the last row need not be the latest one. *)
Example latest_data_unordered :
  let df := [sample_row "Peru" 5 70 1%float; sample_row "Peru" 4 60 1%float] in
  option_map date (latest_data (filtered_df df "Peru" 1 9)) = Some (midnight 4)
  /\ In (midnight 5) (map date (filtered_df df "Peru" 1 9)).
Proof. split; [reflexivity|now left]. Qed.

(** ** Sorting by insertion *)

Section SortBy.

Context {A : Type}.
Variable before : A -> A -> bool.

Lemma insert_by_perm (x : A) (l : list A) :
  Permutation (x :: l) (insert_by before x l).
Proof.
  induction l as [|y l IH]; simpl; [reflexivity|].
  destruct (before x y); [reflexivity|].
  etransitivity; [apply perm_swap|]. now apply perm_skip.
Qed.

Lemma sort_by_perm (l : list A) : Permutation l (sort_by before l).
Proof.
  induction l as [|x l IH]; simpl; [reflexivity|].
  etransitivity; [apply perm_skip, IH|]. apply insert_by_perm.
Qed.

Lemma sort_by_In (l : list A) (x : A) : In x (sort_by before l) <-> In x l.
Proof.
  split; apply Permutation_in;
    [apply Permutation_sym|]; apply sort_by_perm.
Qed.

Lemma sort_by_length (l : list A) :
  List.length (sort_by before l) = List.length l.
Proof. symmetry. apply Permutation_length, sort_by_perm. Qed.

Hypothesis before_total : forall a b : A, before a b = false -> before b a = true.
Hypothesis before_trans :
  forall a b c : A, before a b = true -> before b c = true -> before a c = true.

Let ordered (a b : A) : Prop := before a b = true.

Lemma insert_by_sorted (x : A) (l : list A) :
  StronglySorted ordered l -> StronglySorted ordered (insert_by before x l).
Proof.
  induction l as [|y l IH]; simpl; intros Hs.
  - repeat constructor.
  - inversion Hs as [|? ? Hs' Hall]; subst.
    destruct (before x y) eqn:Hxy.
    + constructor; [exact Hs|].
      constructor; [exact Hxy|].
      eapply Forall_impl; [|exact Hall].
      intros z Hz. now apply before_trans with y.
    + constructor; [now apply IH|].
      eapply Permutation_Forall; [apply insert_by_perm|].
      constructor; [now apply before_total|exact Hall].
Qed.

Lemma sort_by_sorted (l : list A) : StronglySorted ordered (sort_by before l).
Proof.
  induction l as [|x l IH]; simpl; [constructor|].
  now apply insert_by_sorted.
Qed.

End SortBy.

Lemma StronglySorted_firstn {A : Type} (R : A -> A -> Prop) (n : nat) (l : list A) :
  StronglySorted R l -> StronglySorted R (firstn n l).
Proof.
  revert n. induction l as [|x l IH]; intros [|n] Hs; simpl; try constructor.
  - inversion Hs; subst. now apply IH.
  - inversion Hs as [|? ? _ Hall]; subst.
    rewrite Forall_forall in *. intros y Hy. apply Hall.
    rewrite <- (firstn_skipn n l). apply in_or_app. now left.
Qed.

Lemma StronglySorted_map {A B : Type} (R : B -> B -> Prop) (f : A -> B) (l : list A) :
  StronglySorted (fun a b => R (f a) (f b)) l -> StronglySorted R (map f l).
Proof.
  induction 1 as [|x l Hs IH Hall]; simpl; constructor; [exact IH|].
  rewrite Forall_forall in *. intros b Hb.
  apply in_map_iff in Hb as (a & <- & Ha). now apply Hall.
Qed.

Lemma StronglySorted_weaken {A : Type} (R R' : A -> A -> Prop) (l : list A) :
  (forall a b : A, R a b -> R' a b) ->
  StronglySorted R l -> StronglySorted R' l.
Proof.
  intros HR. induction 1 as [|x l Hs IH Hall]; constructor; [exact IH|].
  eapply Forall_impl; [|exact Hall]. intros b. apply HR.
Qed.

Lemma sort_values_date_sorted (t : DataFrame) :
  StronglySorted Z.le (map date (sort_values_date t)).
Proof.
  apply StronglySorted_map. unfold sort_values_date.
  eapply StronglySorted_weaken; [|apply sort_by_sorted].
  - intros a b H. now apply Z.leb_le.
  - intros a b H. apply Z.leb_gt in H. apply Z.leb_le. lia.
  - intros a b c H1 H2. apply Z.leb_le in H1, H2. apply Z.leb_le. lia.
Qed.

(** ** Top-10 ranking *)

Lemma nlargest_sorted (n : nat) (t : DataFrame) :
  StronglySorted Z.ge (map total_vaccinations (nlargest n t)).
Proof.
  apply StronglySorted_map. unfold nlargest.
  apply StronglySorted_firstn.
  eapply StronglySorted_weaken; [|apply sort_by_sorted].
  - intros a b H. apply Z.leb_le in H. lia.
  - intros a b H. apply Z.leb_gt in H. apply Z.leb_le. lia.
  - intros a b c H1 H2. apply Z.leb_le in H1, H2. apply Z.leb_le. lia.
Qed.

Lemma nlargest_length (n : nat) (t : DataFrame) :
  List.length (nlargest n t) = Nat.min n (List.length t).
Proof. unfold nlargest. now rewrite length_firstn, sort_by_length. Qed.

Lemma nlargest_In (n : nat) (t : DataFrame) (r : Row) :
  In r (nlargest n t) -> In r t.
Proof.
  unfold nlargest. intros H.
  eapply sort_by_In.
  rewrite <- (firstn_skipn n). apply in_or_app. left. exact H.
Qed.

(** C3.  The top-10 ranking of any per-country table lists total vaccinations
    in descending order and has at most 10 entries. *)
Theorem top_10_sorted_at_most_10 (latest : DataFrame) :
  StronglySorted Z.ge (map total_vaccinations (top_10 latest))
  /\ (List.length (top_10 latest) <= 10)%nat.
Proof.
  split.
  - apply nlargest_sorted.
  - unfold top_10. rewrite nlargest_length. apply Nat.le_min_l.
Qed.

Example top_10_sample :
  map total_vaccinations (top_10 (latest_country_data sample_df 3)) = [90; 30].
Proof. reflexivity. Qed.

Example top_10_of_twelve :
  let t := map (fun n => sample_row "X" 1 n 0%float) [3; 9; 1; 12; 5; 7; 2; 11; 4; 8; 6; 10] in
  map total_vaccinations (top_10 t) = [12; 11; 10; 9; 8; 7; 6; 5; 4; 3].
Proof. reflexivity. Qed.

(** ** Latest record per country *)

Lemma str_in_true (s : string) (l : list string) : str_in s l = true <-> In s l.
Proof.
  unfold str_in. rewrite existsb_exists. split.
  - intros (x & Hx & Heq). apply String.eqb_eq in Heq. now subst.
  - intros H. exists s. split; [exact H|apply String.eqb_refl].
Qed.

Lemma str_in_false (s : string) (l : list string) : str_in s l = false <-> ~ In s l.
Proof.
  rewrite <- str_in_true. destruct (str_in s l); split; congruence.
Qed.

Lemma subset_mask_true (end_date : Z) (r : Row) :
  subset_mask end_date r = true
  <-> dt_date (date r) <= end_date /\ ~ In (location r) non_country_aggregates.
Proof.
  unfold subset_mask.
  now rewrite andb_true_iff, negb_true_iff, Z.leb_le, str_in_false.
Qed.

Lemma later_same_location (r : Row) (t : DataFrame) :
  existsb (location_mask (location r)) t = true
  <-> exists r' : Row, In r' t /\ location r' = location r.
Proof.
  rewrite existsb_exists.
  split; intros (r' & Hin & H); exists r'; split; auto; now apply location_mask_true.
Qed.

Lemma groupby_location_tail1_In (t : DataFrame) (r : Row) :
  In r (groupby_location_tail1 t) -> In r t.
Proof.
  induction t as [|x t IH]; simpl; [auto|].
  destruct (existsb _ t); simpl; intuition.
Qed.

(** Every location of the frame keeps a row. *)
Lemma groupby_location_tail1_covers (t : DataFrame) (r' : Row) :
  In r' t ->
  exists r : Row, In r (groupby_location_tail1 t) /\ location r = location r'.
Proof.
  revert r'. induction t as [|x t IH]; simpl; [contradiction|].
  intros r' Hin.
  destruct (existsb (location_mask (location x)) t) eqn:Hex.
  - destruct Hin as [->|Hin]; [|now apply IH].
    apply later_same_location in Hex as (y & Hy & Hloc).
    destruct (IH y Hy) as (r & Hr & Hr'). exists r. split; [exact Hr|congruence].
  - destruct Hin as [->|Hin].
    + exists r'. split; [now left|reflexivity].
    + destruct (IH r' Hin) as (r & Hr & Hr'). exists r. split; [now right|exact Hr'].
Qed.

(** No location keeps two rows. *)
Lemma groupby_location_tail1_NoDup (t : DataFrame) :
  NoDup (map location (groupby_location_tail1 t)).
Proof.
  induction t as [|x t IH]; simpl; [constructor|].
  destruct (existsb (location_mask (location x)) t) eqn:Hex; [exact IH|].
  simpl. constructor; [|exact IH].
  intros Hin. apply in_map_iff in Hin as (r & Hloc & Hr).
  apply groupby_location_tail1_In in Hr.
  assert (Hex' : existsb (location_mask (location x)) t = true)
    by (apply later_same_location; now exists r).
  congruence.
Qed.

(** In a frame ordered by timestamp the kept row of a location is its latest. *)
Lemma groupby_location_tail1_latest (t : DataFrame) (r : Row) :
  StronglySorted Z.le (map date t) ->
  In r (groupby_location_tail1 t) ->
  forall r' : Row, In r' t -> location r' = location r -> date r' <= date r.
Proof.
  induction t as [|x t IH]; simpl; [contradiction|].
  intros Hs Hr r' Hr' Hloc.
  inversion Hs as [|? ? Hs' Hall]; subst.
  rewrite Forall_forall in Hall.
  destruct (existsb (location_mask (location x)) t) eqn:Hex.
  - destruct Hr' as [->|Hr']; [|now apply IH].
    apply Hall, in_map. now apply groupby_location_tail1_In.
  - destruct Hr as [->|Hr]; destruct Hr' as [->|Hr'].
    + lia.
    + assert (Hex' : existsb (location_mask (location r)) t = true)
        by (apply later_same_location; now exists r').
      congruence.
    + apply Hall, in_map. now apply groupby_location_tail1_In.
    + now apply IH.
Qed.

Lemma latest_country_data_In (df : DataFrame) (end_date : Z) (r : Row) :
  In r (latest_country_data df end_date) ->
  In r df /\ dt_date (date r) <= end_date /\ ~ In (location r) non_country_aggregates.
Proof.
  unfold latest_country_data, sort_values_date, subset_df. intros H.
  apply groupby_location_tail1_In, sort_by_In, filter_In in H as [Hin Hmask].
  apply subset_mask_true in Hmask. tauto.
Qed.

(** C4, as the script has it.  The global view keeps one record per location
    that is not an aggregate and has a row dated on or before [end_date]; the
    record kept is a row of the dataset for that location with the latest
    timestamp among the location's rows dated on or before [end_date].  The
    start of the selected window plays no part. *)
Theorem latest_country_data_up_to_end_date (df : DataFrame) (end_date : Z) :
  NoDup (map location (latest_country_data df end_date))
  /\ (forall r : Row,
        In r (latest_country_data df end_date) ->
        In r df
        /\ dt_date (date r) <= end_date
        /\ forall r' : Row,
             In r' df -> location r' = location r ->
             dt_date (date r') <= end_date ->
             date r' <= date r)
  /\ (forall r' : Row,
        In r' df -> dt_date (date r') <= end_date ->
        ~ In (location r') non_country_aggregates ->
        exists r : Row,
          In r (latest_country_data df end_date) /\ location r = location r').
Proof.
  split; [apply groupby_location_tail1_NoDup|split].
  - intros r Hr.
    destruct (latest_country_data_In _ _ _ Hr) as (Hin & Hend & Hagg).
    repeat split; auto.
    intros r' Hr' Hloc Hend'.
    apply (groupby_location_tail1_latest _ r (sort_values_date_sorted _) Hr); [|exact Hloc].
    apply sort_by_In, filter_In. split; [exact Hr'|].
    apply subset_mask_true. split; [exact Hend'|]. now rewrite Hloc.
  - intros r' Hr' Hend Hagg.
    apply groupby_location_tail1_covers.
    apply sort_by_In, filter_In. split; [exact Hr'|].
    now apply subset_mask_true.
Qed.

Lemma latest_country_data_up_to_end_date_witness :
  let india := sample_row "India" 3 90 12%float in
  (In india sample_df
   /\ dt_date (date india) <= 3
   /\ forall r' : Row,
        In r' sample_df -> location r' = location india ->
        dt_date (date r') <= 3 ->
        date r' <= date india)
  /\ exists r : Row,
       In r (latest_country_data sample_df 3) /\ location r = "India"%string.
Proof.
  split.
  - apply (proj1 (proj2 (latest_country_data_up_to_end_date sample_df 3))).
    right. now left.
  - apply (proj2 (proj2 (latest_country_data_up_to_end_date sample_df 3))
             (sample_row "India" 1 40 5%float)).
    + right. now left.
    + change (dt_date (midnight 1) <= 3). rewrite dt_date_midnight. lia.
    + apply str_in_false. reflexivity.
Defined.

Example latest_country_data_sample :
  map (fun r => (location r, dt_date (date r))) (latest_country_data sample_df 3)
  = [("Chile"%string, 2); ("India"%string, 3)].
Proof. reflexivity. Qed.

(** C4, as worded: with the window [3, 3] the record kept for Chile is dated
    day 2, before the window opens. *)
Lemma latest_country_data_outside_window :
  ~ latest_within_window sample_df 3 3.
Proof.
  intros H.
  destruct (H (sample_row "Chile" 2 30 120%float)) as [[Hlo _] _].
  - now left.
  - change (3 <= dt_date (midnight 2)) in Hlo.
    rewrite dt_date_midnight in Hlo. lia.
Qed.

(** ** Long form *)

Lemma melt_length (value_vars : list Column) (t : DataFrame) :
  List.length (melt value_vars t) = (List.length t * List.length value_vars)%nat.
Proof.
  unfold melt. induction value_vars as [|c cs IH]; simpl.
  - now rewrite Nat.mul_0_r.
  - rewrite length_app, length_map, IH. lia.
Qed.

(** C7.  Melting the two count columns of any table gives twice as many
    records as the table has rows; the one-row frame of the latest row of a
    non-empty filtered table melts into exactly 2 records. *)
Theorem melt_doubles_row_count (t : DataFrame) :
  List.length (melt comparison_cols t) = (List.length t * 2)%nat
  /\ (t <> [] ->
      exists melted : list MeltedRow,
        latest_comparison t = Some melted /\ List.length melted = 2%nat).
Proof.
  split; [apply melt_length|].
  intros Hne. destruct (iloc_last_some t Hne) as [r Hr].
  unfold latest_comparison, iloc_last_frame. rewrite Hr. simpl.
  eexists. split; reflexivity.
Qed.

Lemma melt_doubles_row_count_witness :
  exists melted : list MeltedRow,
    latest_comparison (filtered_df sample_df "India" 1 3) = Some melted
    /\ List.length melted = 2%nat.
Proof.
  apply (proj2 (melt_doubles_row_count (filtered_df sample_df "India" 1 3))).
  discriminate.
Defined.

Example melt_sample :
  melt comparison_cols (filtered_df sample_df "India" 1 3)
  = [ mkMelted "India" "people_vaccinated" 40;
      mkMelted "India" "people_vaccinated" 90;
      mkMelted "India" "people_fully_vaccinated" 0;
      mkMelted "India" "people_fully_vaccinated" 0 ].
Proof. reflexivity. Qed.

(** ** Aggregates *)

Lemma unique_In (l : list string) (x : string) : In x (unique l) <-> In x l.
Proof.
  induction l as [|y l IH]; simpl; [tauto|].
  rewrite filter_In, IH, negb_true_iff, String.eqb_neq.
  destruct (string_dec y x) as [->|Hneq]; [tauto|].
  split; [tauto|]. intros [H|H]; [tauto|]. right. split; [exact H|congruence].
Qed.

Lemma country_list_In (df : DataFrame) (loc : string) :
  In loc (country_list df)
  <-> In loc (map location df) /\ ~ In loc non_country_aggregates.
Proof.
  unfold country_list, sorted.
  now rewrite sort_by_In, filter_In, unique_In, negb_true_iff, str_in_false.
Qed.

(** C8.  Neither the sidebar country list nor the per-country data of the
    global view holds one of the eleven aggregate names: each location in
    them is a location of the dataset outside the aggregate list. *)
Theorem aggregates_excluded (df : DataFrame) (end_date : Z) :
  List.length non_country_aggregates = 11%nat
  /\ (forall loc : string,
        In loc (country_list df) ->
        In loc (map location df) /\ ~ In loc non_country_aggregates)
  /\ (forall r : Row,
        In r (latest_country_data df end_date) ->
        In (location r) (map location df)
        /\ ~ In (location r) non_country_aggregates).
Proof.
  split; [reflexivity|split].
  - intros loc. apply country_list_In.
  - intros r Hr. apply latest_country_data_In in Hr as (Hin & _ & Hagg).
    split; [now apply in_map|exact Hagg].
Qed.

Lemma aggregates_excluded_witness :
  (In "India"%string (map location sample_df)
   /\ ~ In "India"%string non_country_aggregates)
  /\ (In "Chile"%string (map location sample_df)
      /\ ~ In "Chile"%string non_country_aggregates).
Proof.
  split.
  - apply (proj1 (proj2 (aggregates_excluded sample_df 3)) "India"%string).
    right. now left.
  - apply (proj2 (proj2 (aggregates_excluded sample_df 3))
             (sample_row "Chile" 2 30 120%float)).
    now left.
Defined.

Example country_list_sample : country_list sample_df = ["Chile"; "India"]%string.
Proof. reflexivity. Qed.

(** ** Runs of the script *)

Ltac run_script :=
  cbn -[filtered_df location_options min_date max_date latest_country_data
        top_10 progress_arg melt comparison_cols iloc_last PrimFloat.ltb].

(** The run when the file loads and the filter leaves nothing. *)
Lemma app_empty_filter (i : Inputs) (df : DataFrame) :
  read_parquet i = ReadOk df ->
  filtered_df df (selectbox_value i) (fst (date_input_value i))
              (snd (date_input_value i)) = [] ->
  app i
  = ([ set_page_config;
       sidebar_header "Filter Options";
       sidebar_selectbox "Select a Location" (location_options df);
       sidebar_date_input "Select Date Range" (min_date df) (max_date df);
       st_title;
       st_markdown_filters (selectbox_value i) (fst (date_input_value i))
                           (snd (date_input_value i));
       st_warning "No data available for the selected filters." ],
     Stopped).
Proof.
  intros Hread Hempty.
  unfold app, load_data, pd_read_parquet. rewrite Hread.
  run_script. rewrite Hempty. reflexivity.
Qed.

(** The run when the file loads and the filter leaves rows. *)
Lemma app_nonempty_filter (i : Inputs) (df : DataFrame) (latest : Row) :
  read_parquet i = ReadOk df ->
  let selected_option := selectbox_value i in
  let start_date := fst (date_input_value i) in
  let end_date := snd (date_input_value i) in
  let filtered := filtered_df df selected_option start_date end_date in
  latest_data filtered = Some latest ->
  app i
  = ([ set_page_config;
       sidebar_header "Filter Options";
       sidebar_selectbox "Select a Location" (location_options df);
       sidebar_date_input "Select Date Range" (min_date df) (max_date df);
       st_title;
       st_markdown_filters selected_option start_date end_date;
       st_columns 4;
       st_metric "Total Vaccinations" (CountValue (total_vaccinations latest));
       st_metric "People Fully Vaccinated" (CountValue (people_fully_vaccinated latest));
       st_metric "Total Boosters" (CountValue (total_boosters latest));
       st_metric "Fully Vaccinated %"
                 (PercentValue (people_fully_vaccinated_per_hundred latest));
       st_progress (progress_arg (people_fully_vaccinated_per_hundred latest));
       st_markdown_rule;
       st_tabs ["Trends"; "Comparisons"; "Global View"]%string;
       st_subheader "Vaccination Trends Over Time";
       st_plotly_chart (px_area filtered "date" "total_vaccinations");
       st_plotly_chart (px_line filtered "date" "daily_vaccinations");
       st_subheader "Vaccination Breakdown";
       st_plotly_chart (px_bar_metric (melt comparison_cols [latest]) selected_option) ]
     ++ trace (global_view_tab df selected_option end_date),
     Done tt).
Proof.
  intros Hread selected_option start_date end_date filtered Hlatest.
  unfold latest_data in Hlatest.
  unfold app, load_data, pd_read_parquet. rewrite Hread.
  run_script. fold selected_option start_date end_date. fold filtered.
  destruct filtered as [|r0 rest] eqn:Hf; [discriminate|].
  unfold key_metrics, comparisons_tab, latest_comparison, iloc_last_frame,
    iloc_last_or_raise, trends_tab, global_view_tab.
  rewrite Hlatest.
  destruct (String.eqb selected_option "Worldwide"); reflexivity.
Qed.

(** C5.  When the file loads and the filter result is empty, the run ends at
    [st.stop()] right after the warning: the warning is the last call made,
    and no metric, progress bar or chart is shown. *)
Theorem empty_filter_warns_and_stops (i : Inputs) (df : DataFrame) :
  read_parquet i = ReadOk df ->
  empty (filtered_df df (selectbox_value i) (fst (date_input_value i))
                     (snd (date_input_value i))) = true ->
  outcome (app i) = Stopped
  /\ (exists before : list Call,
        trace (app i)
        = before ++ [st_warning "No data available for the selected filters."])
  /\ existsb shows_metric_or_chart (trace (app i)) = false.
Proof.
  intros Hread Hempty.
  destruct (filtered_df _ _ _ _) eqn:Hf in Hempty; [|discriminate].
  rewrite (app_empty_filter i df Hread Hf).
  split; [reflexivity|split; [|reflexivity]].
  eexists [_; _; _; _; _; _]. reflexivity.
Qed.

Lemma empty_filter_warns_and_stops_witness :
  let i := mkInputs (ReadOk sample_df) "Chile" (3, 3) in
  outcome (app i) = Stopped
  /\ (exists before : list Call,
        trace (app i)
        = before ++ [st_warning "No data available for the selected filters."])
  /\ existsb shows_metric_or_chart (trace (app i)) = false.
Proof.
  apply (empty_filter_warns_and_stops
           (mkInputs (ReadOk sample_df) "Chile" (3, 3)) sample_df);
    reflexivity.
Defined.

(** A run whose filter leaves rows does reach the metrics and the charts. *)
Example app_sample_run :
  outcome (app sample_inputs) = Done tt
  /\ existsb shows_metric_or_chart (trace (app sample_inputs)) = true
  /\ List.length (trace (app sample_inputs)) = 23%nat.
Proof. repeat split. Qed.

(** C6.  When the data file is absent the run shows the error message and
    ends at [st.stop()], having done nothing else after the page set-up; any
    other exception from reading the file leaves the script uncaught, with no
    error message shown. *)
Theorem missing_file_is_the_only_handled_error (i : Inputs) :
  (read_parquet i = ReadRaises FileNotFoundError ->
   app i
   = ([ set_page_config;
        st_error "Data file not found. Please run the data preparation notebook first." ],
      Stopped))
  /\ (forall e : Exception,
        read_parquet i = ReadRaises e ->
        e <> FileNotFoundError ->
        app i = ([set_page_config], Raised e)
        /\ existsb shows_error (trace (app i)) = false).
Proof.
  split.
  - intros Hread. unfold app, load_data, pd_read_parquet. rewrite Hread. reflexivity.
  - intros e Hread Hother.
    unfold app, load_data, pd_read_parquet. rewrite Hread.
    destruct e; [contradiction| |]; split; reflexivity.
Qed.

Lemma missing_file_is_the_only_handled_error_witness :
  app (mkInputs (ReadRaises FileNotFoundError) "Worldwide" (1, 3))
  = ([ set_page_config;
       st_error "Data file not found. Please run the data preparation notebook first." ],
     Stopped)
  /\ (app (mkInputs (ReadRaises (OtherError "PermissionError")) "Worldwide" (1, 3))
      = ([set_page_config], Raised (OtherError "PermissionError"))
      /\ existsb shows_error
           (trace (app (mkInputs (ReadRaises (OtherError "PermissionError"))
                                 "Worldwide" (1, 3)))) = false).
Proof.
  split.
  - apply (proj1 (missing_file_is_the_only_handled_error
                    (mkInputs (ReadRaises FileNotFoundError) "Worldwide" (1, 3)))).
    reflexivity.
  - apply (proj2 (missing_file_is_the_only_handled_error
                    (mkInputs (ReadRaises (OtherError "PermissionError"))
                              "Worldwide" (1, 3)))
             (OtherError "PermissionError")).
    + reflexivity.
    + discriminate.
Defined.

(** ** Progress bar *)

Lemma progress_arg_not_above_one (coverage : float) :
  PrimFloat.ltb 1 (progress_arg coverage) = false.
Proof.
  unfold progress_arg, py_min.
  destruct (PrimFloat.ltb 1 (PrimFloat.div coverage 100)) eqn:H;
    [reflexivity|exact H].
Qed.

Lemma SFcompare_swap (a b : spec_float) :
  SFcompare b a = option_map CompOpp (SFcompare a b).
Proof.
  destruct a as [[|]|[|]| |[|] ma ea], b as [[|]|[|]| |[|] mb eb];
    try reflexivity; simpl;
    rewrite (Z.compare_antisym ea eb);
    destruct (ea ?= eb); simpl; try reflexivity;
    rewrite (Pos.compare_cont_antisym ma mb Eq);
    destruct (Pos.compare_cont Eq ma mb); reflexivity.
Qed.

(** Unless the quotient is a NaN, the argument is at most 1.0 in the sense of
    [<=] as well. *)
Lemma progress_arg_at_most_one (coverage : float) :
  PrimFloat.is_nan (PrimFloat.div coverage 100) = false ->
  PrimFloat.leb (progress_arg coverage) 1 = true.
Proof.
  intros Hnan. unfold progress_arg, py_min.
  destruct (PrimFloat.ltb 1 (PrimFloat.div coverage 100)) eqn:H; [reflexivity|].
  unfold PrimFloat.is_nan in Hnan. apply negb_false_iff in Hnan.
  rewrite eqb_spec in Hnan. rewrite ltb_spec in H. rewrite leb_spec.
  unfold SFeqb, SFltb, SFleb in *.
  rewrite (SFcompare_swap (Prim2SF 1) (Prim2SF (PrimFloat.div coverage 100))).
  destruct (SFcompare (Prim2SF 1) (Prim2SF (PrimFloat.div coverage 100)))
    as [[| |]|] eqn:Hc; [reflexivity|discriminate H|reflexivity|].
  destruct (Prim2SF (PrimFloat.div coverage 100)) as [s|s| |s m e];
    [destruct s| |discriminate Hnan|destruct s]; vm_compute in Hc; discriminate Hc.
Qed.

(** The call of the progress bar, when the run makes one, is the one of line
    96 on the latest row. *)
Lemma progress_call (i : Inputs) (x : float) :
  In (st_progress x) (trace (app i)) ->
  exists (df : DataFrame) (latest : Row),
    read_parquet i = ReadOk df
    /\ latest_data (filtered_df df (selectbox_value i) (fst (date_input_value i))
                                (snd (date_input_value i))) = Some latest
    /\ x = progress_arg (people_fully_vaccinated_per_hundred latest).
Proof.
  intros Hin.
  destruct (read_parquet i) as [df|e] eqn:Hread.
  - exists df.
    destruct (latest_data (filtered_df df (selectbox_value i) (fst (date_input_value i))
                                       (snd (date_input_value i)))) as [latest|] eqn:Hl.
    + exists latest. repeat split.
      rewrite (app_nonempty_filter i df latest Hread Hl) in Hin.
      unfold trace, fst, global_view_tab in Hin.
      destruct (String.eqb (selectbox_value i) "Worldwide");
        simpl in Hin;
        repeat (destruct Hin as [Hin|Hin]; [try discriminate Hin|]);
        try contradiction;
        now injection Hin as <-.
    + apply iloc_last_none in Hl.
      rewrite (app_empty_filter i df Hread Hl) in Hin. simpl in Hin.
      repeat (destruct Hin as [Hin|Hin]; [discriminate Hin|]). contradiction.
  - unfold app, load_data, pd_read_parquet in Hin. rewrite Hread in Hin.
    destruct e; simpl in Hin;
      repeat (destruct Hin as [Hin|Hin]; [discriminate Hin|]); contradiction.
Qed.

(** C9.  Whatever the coverage value, the argument the progress bar receives
    is [min(coverage / 100, 1.0)] for the coverage of the latest row, and 1.0
    is never below it. *)
Theorem progress_never_exceeds_one (i : Inputs) (x : float) :
  In (st_progress x) (trace (app i)) ->
  (exists (df : DataFrame) (latest : Row),
     read_parquet i = ReadOk df
     /\ latest_data (filtered_df df (selectbox_value i) (fst (date_input_value i))
                                 (snd (date_input_value i))) = Some latest
     /\ x = py_min (PrimFloat.div (people_fully_vaccinated_per_hundred latest) 100) 1)
  /\ PrimFloat.ltb 1 x = false.
Proof.
  intros Hin.
  destruct (progress_call i x Hin) as (df & latest & Hread & Hl & ->).
  split; [|apply progress_arg_not_above_one].
  exists df, latest. auto.
Qed.

Lemma progress_never_exceeds_one_witness :
  let i := mkInputs (ReadOk sample_df) "Chile" (1, 3) in
  (exists (df : DataFrame) (latest : Row),
     read_parquet i = ReadOk df
     /\ latest_data (filtered_df df (selectbox_value i) (fst (date_input_value i))
                                 (snd (date_input_value i))) = Some latest
     /\ 1%float = py_min (PrimFloat.div (people_fully_vaccinated_per_hundred latest) 100) 1)
  /\ PrimFloat.ltb 1 1 = false.
Proof.
  apply (progress_never_exceeds_one
           (mkInputs (ReadOk sample_df) "Chile" (1, 3)) 1%float).
  do 11 right. left. reflexivity.
Defined.

(** A coverage of 120 percent is shown as a full bar, 50 percent as half. *)
Example progress_arg_sample :
  progress_arg 120%float = 1%float /\ progress_arg 50%float = 0.5%float.
Proof. split; reflexivity. Qed.

(** ** The filtering step and the store *)

Lemma nth_error_new {A : Type} (s : list A) (a : A) :
  nth_error (s ++ [a]) (List.length s) = Some a.
Proof. now rewrite nth_error_app2, Nat.sub_diag by lia. Qed.

Lemma nth_error_kept {A : Type} (s : list A) (a u : A) (x : nat) :
  nth_error s x = Some u -> nth_error (s ++ [a]) x = Some u.
Proof.
  intros H. rewrite nth_error_app1; [exact H|].
  apply nth_error_Some. congruence.
Qed.

(** Allocation extends the store and touches no object already in it. *)
Lemma new_frame_frame (t : DataFrame) (s : Store.store) :
  exists (x : Store.ref) (s' : Store.store),
    Store.new_frame t s = Some (x, s')
    /\ nth_error s x = None
    /\ nth_error s' x = Some t
    /\ forall (y : Store.ref) (u : DataFrame),
         nth_error s y = Some u -> nth_error s' y = Some u.
Proof.
  exists (List.length s), (s ++ [t]). repeat split.
  - apply nth_error_None. lia.
  - apply nth_error_new.
  - intros y u. apply nth_error_kept.
Qed.

(** C10.  The filtering step of lines 62-68 runs on any store that holds the
    cached dataset, binds [filtered_df] to a new object holding the filtered
    rows, and leaves the cached dataset, like every object present before the
    step, as it was. *)
Theorem filter_step_leaves_dataset (s : Store.store) (df : Store.ref)
    (t : DataFrame) (selected_option : string) (start_date end_date : Z) :
  nth_error s df = Some t ->
  exists (filtered : Store.ref) (s' : Store.store),
    Store.filter_step df selected_option start_date end_date s = Some (filtered, s')
    /\ nth_error s' filtered = Some (filtered_df t selected_option start_date end_date)
    /\ filtered <> df
    /\ nth_error s' df = Some t
    /\ forall (x : Store.ref) (u : DataFrame),
         nth_error s x = Some u -> nth_error s' x = Some u.
Proof.
  intros Hdf.
  set (by_location := filter (location_mask (location_to_filter selected_option)) t).
  set (s1 := s ++ [by_location]).
  set (s2 := s1 ++ [by_location]).
  set (s3 := s2 ++ [filter (date_mask start_date end_date) by_location]).
  exists (List.length s2), s3.
  assert (Hkept : forall x u, nth_error s x = Some u -> nth_error s3 x = Some u).
  { intros x u H. now apply nth_error_kept, nth_error_kept, nth_error_kept. }
  repeat split.
  - unfold Store.filter_step, Store.getitem_mask, Store.copy, Store.mbind,
      Store.read, Store.new_frame.
    subst s3 s2 s1 by_location.
    rewrite Hdf. now rewrite !nth_error_new.
  - apply nth_error_new.
  - intros Heq. assert (Hlt : (df < List.length s)%nat)
      by (apply nth_error_Some; congruence).
    unfold s2, s1 in Heq. rewrite !length_app in Heq. simpl in Heq. lia.
  - now apply Hkept.
  - exact Hkept.
Qed.

Lemma filter_step_leaves_dataset_witness :
  exists (filtered : Store.ref) (s' : Store.store),
    Store.filter_step 0%nat "Worldwide" 2 3 [sample_df] = Some (filtered, s')
    /\ nth_error s' filtered = Some (filtered_df sample_df "Worldwide" 2 3)
    /\ filtered <> 0%nat
    /\ nth_error s' 0%nat = Some sample_df
    /\ forall (x : Store.ref) (u : DataFrame),
         nth_error [sample_df] x = Some u -> nth_error s' x = Some u.
Proof.
  apply (filter_step_leaves_dataset [sample_df] 0%nat sample_df "Worldwide" 2 3).
  reflexivity.
Defined.

Example filter_step_sample :
  option_map fst (Store.filter_step 0%nat "Worldwide" 2 3 [sample_df]) = Some 3%nat
  /\ option_map (fun p => List.length (snd p))
                (Store.filter_step 0%nat "Worldwide" 2 3 [sample_df]) = Some 4%nat.
Proof. split; reflexivity. Qed.

(** * Further results *)

(** ** Bounds of the date widget (lines 45-53) *)

Lemma fold_left_min_spec (l : list Z) (x : Z) :
  fold_left Z.min l x <= x
  /\ (forall y : Z, In y l -> fold_left Z.min l x <= y)
  /\ In (fold_left Z.min l x) (x :: l).
Proof.
  revert x. induction l as [|a l IH]; intros x; simpl.
  - repeat split; [lia|contradiction|now left].
  - destruct (IH (Z.min x a)) as (H1 & H2 & H3). repeat split.
    + lia.
    + intros y [<-|Hy]; [lia|now apply H2].
    + destruct H3 as [H3|H3]; [|now right; right].
      rewrite <- H3. destruct (Z.min_spec x a) as [[_ ->]|[_ ->]]; [now left|right; now left].
Qed.

Lemma fold_left_max_spec (l : list Z) (x : Z) :
  x <= fold_left Z.max l x
  /\ (forall y : Z, In y l -> y <= fold_left Z.max l x)
  /\ In (fold_left Z.max l x) (x :: l).
Proof.
  revert x. induction l as [|a l IH]; intros x; simpl.
  - repeat split; [lia|contradiction|now left].
  - destruct (IH (Z.max x a)) as (H1 & H2 & H3). repeat split.
    + lia.
    + intros y [<-|Hy]; [lia|now apply H2].
    + destruct H3 as [H3|H3]; [|now right; right].
      rewrite <- H3. destruct (Z.max_spec x a) as [[_ ->]|[_ ->]]; [right; now left|now left].
Qed.

Lemma series_min_spec (l : list Z) (m : Z) :
  series_min l = Some m -> In m l /\ forall y : Z, In y l -> m <= y.
Proof.
  destruct l as [|x l]; [discriminate|]. intros [= <-].
  destruct (fold_left_min_spec l x) as (H1 & H2 & H3).
  split; [exact H3|]. intros y [<-|Hy]; [exact H1|now apply H2].
Qed.

Lemma series_max_spec (l : list Z) (m : Z) :
  series_max l = Some m -> In m l /\ forall y : Z, In y l -> y <= m.
Proof.
  destruct l as [|x l]; [discriminate|]. intros [= <-].
  destruct (fold_left_max_spec l x) as (H1 & H2 & H3).
  split; [exact H3|]. intros y [<-|Hy]; [exact H1|now apply H2].
Qed.

Lemma min_date_spec (df : DataFrame) (lo : Z) :
  min_date df = Some lo ->
  (exists r : Row, In r df /\ dt_date (date r) = lo)
  /\ forall r : Row, In r df -> lo <= dt_date (date r).
Proof.
  unfold min_date. destruct (series_min (map date df)) as [m|] eqn:Hm; [|discriminate].
  intros [= <-]. apply series_min_spec in Hm as [Hin Hle]. split.
  - apply in_map_iff in Hin as (r & <- & Hr). now exists r.
  - intros r Hr. apply dt_date_mono, Hle, in_map, Hr.
Qed.

Lemma max_date_spec (df : DataFrame) (hi : Z) :
  max_date df = Some hi ->
  (exists r : Row, In r df /\ dt_date (date r) = hi)
  /\ forall r : Row, In r df -> dt_date (date r) <= hi.
Proof.
  unfold max_date. destruct (series_max (map date df)) as [m|] eqn:Hm; [|discriminate].
  intros [= <-]. apply series_max_spec in Hm as [Hin Hle]. split.
  - apply in_map_iff in Hin as (r & <- & Hr). now exists r.
  - intros r Hr. apply dt_date_mono, Hle, in_map, Hr.
Qed.

(** X1.  The bounds offered by the date widget are the days of the earliest
    and of the latest row of the dataset: each is the day of some row, and the
    day of every row lies between them. *)
Theorem date_bounds_cover_dataset (df : DataFrame) (lo hi : Z) :
  min_date df = Some lo ->
  max_date df = Some hi ->
  (exists r : Row, In r df /\ dt_date (date r) = lo)
  /\ (exists r : Row, In r df /\ dt_date (date r) = hi)
  /\ forall r : Row, In r df -> lo <= dt_date (date r) <= hi.
Proof.
  intros Hlo Hhi.
  apply min_date_spec in Hlo as [Hlo1 Hlo2].
  apply max_date_spec in Hhi as [Hhi1 Hhi2].
  repeat split; auto.
Qed.

Lemma date_bounds_cover_dataset_witness :
  (exists r : Row, In r sample_df /\ dt_date (date r) = 1)
  /\ (exists r : Row, In r sample_df /\ dt_date (date r) = 3)
  /\ forall r : Row, In r sample_df -> 1 <= dt_date (date r) <= 3.
Proof.
  apply (date_bounds_cover_dataset sample_df 1 3); reflexivity.
Defined.

Lemma filter_all {A : Type} (p : A -> bool) (l : list A) :
  (forall x : A, In x l -> p x = true) -> filter p l = l.
Proof.
  induction l as [|x l IH]; simpl; [reflexivity|]. intros H.
  rewrite (H x) by now left. f_equal. apply IH. intros y Hy. apply H. now right.
Qed.

(** X2.  With the default range of the date widget, or any range that
    contains it, the date filter drops nothing: the filtered table is the
    whole set of rows of the location filtered on. *)
Theorem full_range_keeps_every_row (df : DataFrame) (selected_option : string)
    (lo hi start_date end_date : Z) :
  min_date df = Some lo ->
  max_date df = Some hi ->
  start_date <= lo ->
  hi <= end_date ->
  filtered_df df selected_option start_date end_date
  = filter (location_mask (location_to_filter selected_option)) df.
Proof.
  intros Hlo Hhi Hs He. unfold filtered_df. apply filter_all.
  intros r Hr. apply filter_In in Hr as [Hr _].
  apply min_date_spec in Hlo as [_ Hlo]. apply max_date_spec in Hhi as [_ Hhi].
  apply date_mask_true. specialize (Hlo r Hr). specialize (Hhi r Hr). lia.
Qed.

Lemma full_range_keeps_every_row_witness :
  filtered_df sample_df "India" 1 3
  = filter (location_mask (location_to_filter "India")) sample_df.
Proof.
  apply (full_range_keeps_every_row sample_df "India" 1 3 1 3);
    [reflexivity|reflexivity|lia|lia].
Defined.

(** ** The sidebar list (lines 32-37) *)

Lemma ascii_compare_refl (a : ascii) : Ascii.compare a a = Eq.
Proof. unfold Ascii.compare. apply N.compare_refl. Qed.

Lemma ascii_compare_lt_trans (a b c : ascii) :
  Ascii.compare a b = Lt -> Ascii.compare b c = Lt -> Ascii.compare a c = Lt.
Proof.
  unfold Ascii.compare. rewrite !N.compare_lt_iff. apply N.lt_trans.
Qed.

Lemma string_leb_trans (s1 s2 s3 : string) :
  String.leb s1 s2 = true -> String.leb s2 s3 = true -> String.leb s1 s3 = true.
Proof.
  unfold String.leb. revert s2 s3.
  induction s1 as [|a s1 IH]; intros [|b s2] [|c s3]; simpl; try congruence.
  destruct (Ascii.compare a b) eqn:Hab; try discriminate;
    destruct (Ascii.compare b c) eqn:Hbc; try discriminate.
  - apply Ascii.compare_eq_iff in Hab, Hbc. subst.
    rewrite ascii_compare_refl. apply IH.
  - apply Ascii.compare_eq_iff in Hab. subst. now rewrite Hbc.
  - apply Ascii.compare_eq_iff in Hbc. subst. now rewrite Hab.
  - now rewrite (ascii_compare_lt_trans a b c Hab Hbc).
Qed.

Lemma string_leb_total (s1 s2 : string) :
  String.leb s1 s2 = false -> String.leb s2 s1 = true.
Proof.
  intros H. destruct (String.leb_total s1 s2) as [H'|H']; congruence.
Qed.

Lemma unique_NoDup (l : list string) : NoDup (unique l).
Proof.
  induction l as [|x l IH]; simpl; constructor.
  - intros Hin. apply filter_In in Hin as [_ Hneq].
    now rewrite String.eqb_refl in Hneq.
  - now apply NoDup_filter.
Qed.

(** X3.  The country list of the sidebar is in ascending order and names no
    location twice. *)
Theorem country_list_sorted_distinct (df : DataFrame) :
  StronglySorted (fun a b : string => String.leb a b = true) (country_list df)
  /\ NoDup (country_list df).
Proof.
  split.
  - unfold country_list, sorted.
    apply sort_by_sorted; [exact string_leb_total|exact string_leb_trans].
  - unfold country_list, sorted.
    eapply Permutation_NoDup; [apply sort_by_perm|].
    apply NoDup_filter, unique_NoDup.
Qed.

Example country_list_repeats :
  country_list (sample_df ++ sample_df) = ["Chile"; "India"]%string.
Proof. reflexivity. Qed.

(** ** How a run ends *)

Lemma app_missing_file (i : Inputs) :
  read_parquet i = ReadRaises FileNotFoundError ->
  app i
  = ([ set_page_config;
       st_error "Data file not found. Please run the data preparation notebook first." ],
     Stopped).
Proof.
  intros Hread. unfold app, load_data, pd_read_parquet. now rewrite Hread.
Qed.

Lemma app_read_error (i : Inputs) (e : Exception) :
  read_parquet i = ReadRaises e ->
  e <> FileNotFoundError ->
  app i = ([set_page_config], Raised e).
Proof.
  intros Hread He. unfold app, load_data, pd_read_parquet. rewrite Hread.
  destruct e; [contradiction|reflexivity|reflexivity].
Qed.

Lemma not_FileNotFoundError_dec (e : Exception) :
  e = FileNotFoundError \/ e <> FileNotFoundError.
Proof. destruct e; [now left|right; discriminate|right; discriminate]. Qed.

Lemma app_run_shape (i : Inputs) : RunShape i.
Proof.
  destruct (read_parquet i) as [df|e] eqn:Hread.
  - destruct (run_filtered i df) as [|r0 rest] eqn:Hf.
    + apply (run_no_data i df Hread Hf). now apply app_empty_filter.
    + destruct (iloc_last_some (run_filtered i df)) as [latest Hl];
        [rewrite Hf; discriminate|].
      eapply (run_dashboard i df latest).
      * exact Hread.
      * rewrite Hf. discriminate.
      * exact Hl.
      * exact (app_nonempty_filter i df latest Hread Hl).
      * repeat constructor; discriminate.
      * repeat constructor; discriminate.
  - destruct (not_FileNotFoundError_dec e) as [->|He].
    + apply run_missing_file; [exact Hread|now apply app_missing_file].
    + apply (run_read_error i e Hread He). now apply app_read_error.
Qed.

Lemma global_view_tab_trace (df : DataFrame) (selected_option : string) (end_date : Z) :
  trace (global_view_tab df selected_option end_date)
  = if String.eqb selected_option "Worldwide"
    then [ st_subheader "Global Comparisons";
           st_plotly_chart (px_bar_top10 (top_10 (latest_country_data df end_date)) end_date);
           st_subheader "Global Vaccination Coverage Map";
           st_plotly_chart (px_choropleth (latest_country_data df end_date)) ]
    else [ st_info "Select 'Worldwide' in the sidebar to view global comparisons and rankings." ].
Proof.
  unfold global_view_tab. now destruct (String.eqb selected_option "Worldwide").
Qed.

Lemma app_outcome_no_data (i : Inputs) (df : DataFrame) :
  read_parquet i = ReadOk df ->
  run_filtered i df = [] ->
  outcome (app i) = Stopped /\ In no_data_warning (trace (app i)).
Proof.
  intros Hread Hf. rewrite (app_empty_filter i df Hread Hf).
  split; [reflexivity|]. simpl. do 6 right. now left.
Qed.


Lemma trace_pair {A : Type} (calls : list Call) (o : Outcome A) :
  trace (calls, o) = calls.
Proof. reflexivity. Qed.

Lemma outcome_pair {A : Type} (calls : list Call) (o : Outcome A) :
  outcome (calls, o) = o.
Proof. reflexivity. Qed.

(** Splits on the shape of the run and rewrites the run to its calls. *)
Ltac by_run_shape i :=
  let Happ := fresh "Happ" in
  destruct (app_run_shape i)
    as [Hread Happ|e Hread He Happ|df Hread Hf Happ|df latest shown Hread Hf Hl Happ Hmsg Hfig];
  rewrite Happ; rewrite ?trace_pair, ?outcome_pair.


(** X5.  The warning is shown exactly when the file loads and the filtered
    table is empty, and then with the one message of line 75. *)
Theorem warning_iff_no_data (i : Inputs) (msg : string) :
  In (st_warning msg) (trace (app i))
  <-> msg = "No data available for the selected filters."%string
      /\ exists df : DataFrame, read_parquet i = ReadOk df /\ run_filtered i df = [].
Proof.
  by_run_shape i.
  - split; [simpl; intuition discriminate|]. intros (_ & df & H & _). congruence.
  - split; [simpl; intuition discriminate|]. intros (_ & df & H & _). congruence.
  - split.
    + simpl. intros H.
      repeat (destruct H as [H|H]; [try discriminate H|]); [|contradiction].
      injection H as <-. split; [reflexivity|now exists df].
    + intros (-> & _). simpl. do 6 right. now left.
  - split.
    + intros H. apply in_app_or in H as [H|H].
      * rewrite Forall_forall in Hmsg. now destruct (Hmsg _ H msg) as (Hw & _).
      * rewrite global_view_tab_trace in H.
        destruct (String.eqb (selectbox_value i) "Worldwide"); simpl in H;
          repeat (destruct H as [H|H]; [discriminate H|]); contradiction.
    + intros (_ & df' & H' & H''). congruence.
Qed.

(** X6.  The ranking chart and the map are drawn only when "Worldwide" is
    selected, from the per-country latest records up to the end date of the
    run, and the hint that replaces them only when it is not; a completed run
    shows the two charts or the hint. *)
Theorem global_view_only_worldwide (i : Inputs) :
  (forall (d : DataFrame) (e : Z),
     In (st_plotly_chart (px_bar_top10 d e)) (trace (app i)) ->
     selectbox_value i = "Worldwide"%string
     /\ e = snd (date_input_value i)
     /\ exists df : DataFrame,
          read_parquet i = ReadOk df /\ d = top_10 (latest_country_data df e))
  /\ (forall d : DataFrame,
        In (st_plotly_chart (px_choropleth d)) (trace (app i)) ->
        selectbox_value i = "Worldwide"%string
        /\ exists df : DataFrame,
             read_parquet i = ReadOk df
             /\ d = latest_country_data df (snd (date_input_value i)))
  /\ (forall msg : string,
        In (st_info msg) (trace (app i)) ->
        selectbox_value i <> "Worldwide"%string)
  /\ (outcome (app i) = Done tt ->
      (exists d e, In (st_plotly_chart (px_bar_top10 d e)) (trace (app i)))
      \/ exists msg, In (st_info msg) (trace (app i))).
Proof.
  by_run_shape i.
  1-3: (split; [|split; [|split]]); intros; try discriminate; simpl in *;
    repeat match goal with H : _ \/ _ |- _ => destruct H as [H|H]; [discriminate H|] end;
    contradiction.
  rewrite global_view_tab_trace. rewrite Forall_forall in Hmsg, Hfig.
  destruct (String.eqb_spec (selectbox_value i) "Worldwide") as [Hsel|Hsel];
    (split; [|split; [|split]]).
  - intros d e H. apply in_app_or in H as [H|H]; [now destruct (Hfig _ H d e)|].
    simpl in H. destruct H as [H|[H|[H|[H|[]]]]]; try discriminate H.
    injection H as <- <-. repeat split; [exact Hsel|]. now exists df.
  - intros d H. apply in_app_or in H as [H|H]; [now destruct (Hfig _ H d 0)|].
    simpl in H. destruct H as [H|[H|[H|[H|[]]]]]; try discriminate H.
    injection H as <-. split; [exact Hsel|]. now exists df.
  - intros msg H. apply in_app_or in H as [H|H];
      [now destruct (Hmsg _ H msg) as (_ & _ & ?)|].
    simpl in H. destruct H as [H|[H|[H|[H|[]]]]]; discriminate H.
  - intros _. left. eexists _, _. apply in_or_app. right. right. now left.
  - intros d e H. apply in_app_or in H as [H|H]; [now destruct (Hfig _ H d e)|].
    simpl in H. destruct H as [H|[]]; discriminate H.
  - intros d H. apply in_app_or in H as [H|H]; [now destruct (Hfig _ H d 0)|].
    simpl in H. destruct H as [H|[]]; discriminate H.
  - intros msg _. exact Hsel.
  - intros _. right. eexists. apply in_or_app. right. now left.
Qed.

Lemma global_view_only_worldwide_witness :
  selectbox_value sample_inputs = "Worldwide"%string
  /\ 3 = snd (date_input_value sample_inputs)
  /\ exists df : DataFrame,
       read_parquet sample_inputs = ReadOk df
       /\ top_10 (latest_country_data sample_df 3) = top_10 (latest_country_data df 3).
Proof.
  apply (proj1 (global_view_only_worldwide sample_inputs)
           (top_10 (latest_country_data sample_df 3)) 3).
  do 20 right. left. reflexivity.
Defined.

(** ** Selections that do and do not reach the dashboard *)

Lemma filter_none {A : Type} (p : A -> bool) (l : list A) :
  (forall x : A, In x l -> p x = false) -> filter p l = [].
Proof.
  induction l as [|x l IH]; simpl; [reflexivity|]. intros H.
  rewrite (H x) by now left. apply IH. intros y Hy. apply H. now right.
Qed.

Lemma filtered_df_In (df : DataFrame) (selected_option : string)
    (start_date end_date : Z) (r : Row) :
  In r (filtered_df df selected_option start_date end_date)
  <-> In r df
      /\ location r = location_to_filter selected_option
      /\ start_date <= dt_date (date r) <= end_date.
Proof.
  unfold filtered_df.
  rewrite !filter_In, location_mask_true, date_mask_true. tauto.
Qed.



(** X8.  No row whose location is the string "Worldwide" is ever in the
    filtered table: that name is taken by the sidebar entry for the "World"
    rows, so a dataset location spelled so is listed but cannot be shown. *)
Theorem worldwide_rows_never_shown (df : DataFrame) (selected_option : string)
    (start_date end_date : Z) :
  Forall (fun r : Row => location r <> "Worldwide"%string)
         (filtered_df df selected_option start_date end_date).
Proof.
  apply Forall_forall. intros r Hr.
  apply filtered_df_In in Hr as (_ & Hloc & _). rewrite Hloc.
  unfold location_to_filter.
  destruct (String.eqb_spec selected_option "Worldwide"); [discriminate|assumption].
Qed.

Example worldwide_named_location :
  let df := [sample_row "Worldwide" 1 5 1%float; sample_row "World" 1 9 1%float] in
  In "Worldwide"%string (country_list df)
  /\ map total_vaccinations (filtered_df df "Worldwide" 1 1) = [9].
Proof. split; [now left|reflexivity]. Qed.

(** X9.  A date range whose end precedes its start leaves no row, whatever
    the location: the run shows the warning and is halted. *)
Theorem inverted_range_warns (i : Inputs) (df : DataFrame) :
  read_parquet i = ReadOk df ->
  snd (date_input_value i) < fst (date_input_value i) ->
  run_filtered i df = []
  /\ outcome (app i) = Stopped
  /\ In no_data_warning (trace (app i)).
Proof.
  intros Hread Hinv.
  assert (Hnil : run_filtered i df = []).
  { unfold run_filtered, filtered_df. apply filter_none. intros r _.
    unfold date_mask. apply andb_false_iff.
    destruct (Z.leb_spec (fst (date_input_value i)) (dt_date (date r))); [right|now left].
    apply Z.leb_gt. lia. }
  split; [exact Hnil|now apply app_outcome_no_data with df].
Qed.

Lemma inverted_range_warns_witness :
  let i := mkInputs (ReadOk sample_df) "India" (3, 1) in
  run_filtered i sample_df = []
  /\ outcome (app i) = Stopped
  /\ In no_data_warning (trace (app i)).
Proof.
  apply (inverted_range_warns (mkInputs (ReadOk sample_df) "India" (3, 1)) sample_df).
  - reflexivity.
  - simpl. lia.
Defined.

(** X10.  "Worldwide" shows the rows of the location "World" and nothing
    else: on a dataset without such a row the run is halted by the warning
    before the global view, whatever the countries hold. *)
Theorem worldwide_needs_world_rows (i : Inputs) (df : DataFrame) :
  read_parquet i = ReadOk df ->
  selectbox_value i = "Worldwide"%string ->
  (forall r : Row, In r df -> location r <> "World"%string) ->
  outcome (app i) = Stopped
  /\ In no_data_warning (trace (app i))
  /\ forall c : Call, In c (trace (app i)) -> shows_metric_or_chart c = false.
Proof.
  intros Hread Hsel Hnone.
  assert (Hnil : run_filtered i df = []).
  { unfold run_filtered, filtered_df. rewrite Hsel.
    rewrite (filter_none (location_mask (location_to_filter "Worldwide")) df); [reflexivity|].
    intros r Hr. apply String.eqb_neq. now apply Hnone. }
  destruct (app_outcome_no_data i df Hread Hnil) as [Ho Hw].
  repeat split; [exact Ho|exact Hw|].
  rewrite (app_empty_filter i df Hread Hnil). simpl.
  intros c Hc.
  repeat (destruct Hc as [<-|Hc]; [reflexivity|]). contradiction.
Qed.

Lemma worldwide_needs_world_rows_witness :
  let df := [sample_row "India" 1 40 5%float; sample_row "Chile" 2 30 7%float] in
  let i := mkInputs (ReadOk df) "Worldwide" (1, 3) in
  outcome (app i) = Stopped
  /\ In no_data_warning (trace (app i))
  /\ forall c : Call, In c (trace (app i)) -> shows_metric_or_chart c = false.
Proof.
  apply (worldwide_needs_world_rows
           (mkInputs (ReadOk [sample_row "India" 1 40 5%float;
                              sample_row "Chile" 2 30 7%float])
                     "Worldwide" (1, 3))
           [sample_row "India" 1 40 5%float; sample_row "Chile" 2 30 7%float]).
  - reflexivity.
  - reflexivity.
  - intros r [<-|[<-|[]]]; discriminate.
Defined.

(** ** What the sidebar can reach *)

Lemma location_options_In (df : DataFrame) (option : string) :
  In option (location_options df)
  <-> option = "Worldwide"%string
      \/ (In option (map location df) /\ ~ In option non_country_aggregates).
Proof.
  unfold location_options. simpl. rewrite country_list_In.
  split; (intros [H|H]; [left; congruence|now right]).
Qed.

(** X11.  Through the sidebar only the "World" rows and rows of locations
    outside the aggregate list can be shown; and every such row, unless its
    location is spelled "Worldwide", is shown by some entry of the sidebar
    once the date range contains its day. *)
Theorem sidebar_reach (df : DataFrame) :
  (forall (option : string) (start_date end_date : Z) (r : Row),
     In option (location_options df) ->
     In r (filtered_df df option start_date end_date) ->
     location r = "World"%string \/ ~ In (location r) non_country_aggregates)
  /\ (forall r : Row,
        In r df ->
        location r = "World"%string \/ ~ In (location r) non_country_aggregates ->
        location r <> "Worldwide"%string ->
        exists option : string,
          In option (location_options df)
          /\ forall start_date end_date : Z,
               start_date <= dt_date (date r) <= end_date ->
               In r (filtered_df df option start_date end_date)).
Proof.
  split.
  - intros option s e r Hopt Hr.
    apply filtered_df_In in Hr as (_ & Hloc & _). rewrite Hloc.
    unfold location_to_filter.
    destruct (String.eqb_spec option "Worldwide") as [->|Hne]; [now left|].
    apply location_options_In in Hopt as [Hopt|[_ Hopt]]; [contradiction|now right].
  - intros r Hr [Hworld|Hagg] Hww.
    + exists "Worldwide"%string. split; [now left|].
      intros s e Hday. apply filtered_df_In. now repeat split.
    + exists (location r). split.
      * apply location_options_In. right. split; [now apply in_map|exact Hagg].
      * intros s e Hday. apply filtered_df_In.
        rewrite location_to_filter_country by exact Hww. now repeat split.
Qed.

Lemma sidebar_reach_witness :
  let asia := sample_row "Asia" 3 300 30%float in
  let india := sample_row "India" 3 90 12%float in
  (forall option : string,
     In option (location_options sample_df) ->
     ~ In asia (filtered_df sample_df option 1 3))
  /\ exists option : string,
       In option (location_options sample_df)
       /\ forall start_date end_date : Z,
            start_date <= dt_date (date india) <= end_date ->
            In india (filtered_df sample_df option start_date end_date).
Proof.
  split.
  - intros option Hopt Hin.
    destruct (proj1 (sidebar_reach sample_df) option 1 3 _ Hopt Hin) as [H|H].
    + discriminate H.
    + apply H. simpl. tauto.
  - apply (proj2 (sidebar_reach sample_df)).
    + do 4 right. now left.
    + right. apply str_in_false. reflexivity.
    + discriminate.
Defined.

(** ** More on the ranking (lines 159-162) *)

Lemma StronglySorted_app_inv {A : Type} (R : A -> A -> Prop) (l1 l2 : list A) :
  StronglySorted R (l1 ++ l2) ->
  forall x y : A, In x l1 -> In y l2 -> R x y.
Proof.
  induction l1 as [|a l1 IH]; simpl; [contradiction|].
  intros Hs x y [<-|Hx] Hy; inversion Hs as [|? ? Hs' Hall]; subst.
  - rewrite Forall_forall in Hall. apply Hall, in_or_app. now right.
  - now apply IH.
Qed.

Lemma nlargest_dominates (n : nat) (t : DataFrame) (r' : Row) :
  In r' t ->
  In r' (nlargest n t)
  \/ forall r : Row, In r (nlargest n t) -> total_vaccinations r' <= total_vaccinations r.
Proof.
  intros Hin. unfold nlargest.
  set (before := fun a b : Row => total_vaccinations b <=? total_vaccinations a).
  assert (Hs : StronglySorted (fun a b => before a b = true) (sort_by before t)).
  { apply sort_by_sorted; unfold before.
    - intros a b H. apply Z.leb_gt in H. apply Z.leb_le. lia.
    - intros a b c H1 H2. apply Z.leb_le in H1, H2. apply Z.leb_le. lia. }
  apply (sort_by_In before) in Hin.
  rewrite <- (firstn_skipn n (sort_by before t)) in Hin, Hs.
  apply in_app_or in Hin as [Hin|Hin]; [now left|right].
  intros r Hr. apply Z.leb_le.
  exact (StronglySorted_app_inv _ _ _ Hs r r' Hr Hin).
Qed.

(** X12.  The ranking keeps the rows with the largest totals: a row of the
    table that is left out has a total no greater than that of any row kept;
    the ranking has 10 rows unless the table has fewer, and a table of at most
    10 rows is kept whole, reordered. *)
Theorem top_10_keeps_the_largest (t : DataFrame) :
  (forall r' : Row,
     In r' t -> ~ In r' (top_10 t) ->
     forall r : Row, In r (top_10 t) -> total_vaccinations r' <= total_vaccinations r)
  /\ List.length (top_10 t) = Nat.min 10 (List.length t)
  /\ ((List.length t <= 10)%nat -> Permutation t (top_10 t)).
Proof.
  repeat split.
  - intros r' Hin Hout.
    destruct (nlargest_dominates 10 t r' Hin) as [H|H]; [contradiction|exact H].
  - apply nlargest_length.
  - intros Hlen. unfold top_10, nlargest.
    rewrite firstn_all2 by (now rewrite sort_by_length).
    apply sort_by_perm.
Qed.

Lemma top_10_keeps_the_largest_witness :
  Permutation (latest_country_data sample_df 3)
              (top_10 (latest_country_data sample_df 3)).
Proof.
  apply (proj2 (proj2 (top_10_keeps_the_largest (latest_country_data sample_df 3)))).
  simpl. lia.
Defined.

Lemma NoDup_firstn {A : Type} (n : nat) (l : list A) :
  NoDup l -> NoDup (firstn n l).
Proof.
  revert n. induction l as [|x l IH]; intros [|n] Hnd; simpl; try constructor.
  - inversion Hnd; subst. intros Hin. apply H1.
    rewrite <- (firstn_skipn n l). apply in_or_app. now left.
  - inversion Hnd; subst. now apply IH.
Qed.

(** X13.  In the ranking drawn by the global view no location appears twice,
    and every bar is the record the map shows for that location. *)
Theorem top_10_one_bar_per_location (df : DataFrame) (end_date : Z) :
  NoDup (map location (top_10 (latest_country_data df end_date)))
  /\ Forall (fun r : Row => In r (latest_country_data df end_date))
            (top_10 (latest_country_data df end_date)).
Proof.
  split.
  - unfold top_10, nlargest. rewrite <- firstn_map. apply NoDup_firstn.
    eapply Permutation_NoDup; [apply Permutation_map, sort_by_perm|].
    apply groupby_location_tail1_NoDup.
  - apply Forall_forall. intros r. apply nlargest_In.
Qed.

(** ** The end date and the global view *)

Lemma latest_country_data_latest (df : DataFrame) (end_date : Z) (r : Row) :
  In r (latest_country_data df end_date) ->
  forall r' : Row,
    In r' df -> location r' = location r -> dt_date (date r') <= end_date ->
    date r' <= date r.
Proof.
  intros Hr r' Hr' Hloc Hend.
  destruct (latest_country_data_In _ _ _ Hr) as (_ & _ & Hagg).
  apply (groupby_location_tail1_latest _ r (sort_values_date_sorted _) Hr); [|exact Hloc].
  apply sort_by_In, filter_In. split; [exact Hr'|].
  apply subset_mask_true. split; [exact Hend|]. now rewrite Hloc.
Qed.

(** X14.  Moving the end date later never loses a location from the global
    view and never moves its record back in time. *)
Theorem latest_country_data_grows (df : DataFrame) (end_date end_date' : Z) (r : Row) :
  end_date <= end_date' ->
  In r (latest_country_data df end_date) ->
  exists r' : Row,
    In r' (latest_country_data df end_date')
    /\ location r' = location r
    /\ date r <= date r'.
Proof.
  intros Hle Hr.
  destruct (latest_country_data_In _ _ _ Hr) as (Hin & Hend & Hagg).
  destruct (groupby_location_tail1_covers
              (sort_values_date (subset_df df end_date')) r) as (r' & Hr' & Hloc).
  { apply sort_by_In, filter_In. split; [exact Hin|].
    apply subset_mask_true. split; [lia|exact Hagg]. }
  exists r'. repeat split; [exact Hr'|exact Hloc|].
  apply (latest_country_data_latest df end_date' r' Hr' r Hin); [now symmetry|lia].
Qed.

Lemma latest_country_data_grows_witness :
  exists r' : Row,
    In r' (latest_country_data sample_df 3)
    /\ location r' = location (sample_row "India" 1 40 5%float)
    /\ date (sample_row "India" 1 40 5%float) <= date r'.
Proof.
  apply (latest_country_data_grows sample_df 1 3 (sample_row "India" 1 40 5%float)).
  - lia.
  - now left.
Defined.

(** ** Where the metric cards come from (lines 78-94) *)

(** X15.  Every metric card of a run shows a column of one and the same row:
    the last row of the filtered table, which is a row of the dataset for the
    location filtered on, dated inside the selected range. *)
Theorem metrics_from_latest_row (i : Inputs) (label : string) (v : MetricValue) :
  In (st_metric label v) (trace (app i)) ->
  exists (df : DataFrame) (latest : Row),
    read_parquet i = ReadOk df
    /\ latest_data (run_filtered i df) = Some latest
    /\ In latest df
    /\ location latest = location_to_filter (selectbox_value i)
    /\ fst (date_input_value i) <= dt_date (date latest) <= snd (date_input_value i)
    /\ In (label, v)
          [ ("Total Vaccinations"%string, CountValue (total_vaccinations latest));
            ("People Fully Vaccinated"%string, CountValue (people_fully_vaccinated latest));
            ("Total Boosters"%string, CountValue (total_boosters latest));
            ("Fully Vaccinated %"%string,
             PercentValue (people_fully_vaccinated_per_hundred latest)) ].
Proof.
  intros Hin.
  destruct (read_parquet i) as [df|e] eqn:Hread.
  - destruct (latest_data (run_filtered i df)) as [latest|] eqn:Hl.
    + exists df, latest.
      assert (Hrow : In latest (run_filtered i df)) by now apply iloc_last_In.
      apply filtered_df_In in Hrow as (Hdf & Hloc & Hday).
      repeat split; try assumption; try lia.
      rewrite (app_nonempty_filter i df latest Hread Hl) in Hin.
      rewrite trace_pair in Hin. apply in_app_or in Hin as [Hin|Hin].
      * simpl in Hin.
        repeat (destruct Hin as [Hin|Hin]; [try discriminate Hin|]);
          try contradiction; injection Hin as <- <-; simpl; tauto.
      * rewrite global_view_tab_trace in Hin.
        destruct (String.eqb (selectbox_value i) "Worldwide"); simpl in Hin;
          repeat (destruct Hin as [Hin|Hin]; [discriminate Hin|]); contradiction.
    + apply iloc_last_none in Hl.
      rewrite (app_empty_filter i df Hread Hl) in Hin. simpl in Hin.
      repeat (destruct Hin as [Hin|Hin]; [discriminate Hin|]). contradiction.
  - destruct (not_FileNotFoundError_dec e) as [->|He].
    + rewrite (app_missing_file i Hread) in Hin. simpl in Hin.
      repeat (destruct Hin as [Hin|Hin]; [discriminate Hin|]). contradiction.
    + rewrite (app_read_error i e Hread He) in Hin. simpl in Hin.
      repeat (destruct Hin as [Hin|Hin]; [discriminate Hin|]). contradiction.
Qed.

Lemma metrics_from_latest_row_witness :
  exists (df : DataFrame) (latest : Row),
    read_parquet sample_inputs = ReadOk df
    /\ latest_data (run_filtered sample_inputs df) = Some latest
    /\ In latest df
    /\ location latest = location_to_filter (selectbox_value sample_inputs)
    /\ fst (date_input_value sample_inputs) <= dt_date (date latest)
       <= snd (date_input_value sample_inputs)
    /\ In ("Total Vaccinations"%string, CountValue 400)
          [ ("Total Vaccinations"%string, CountValue (total_vaccinations latest));
            ("People Fully Vaccinated"%string, CountValue (people_fully_vaccinated latest));
            ("Total Boosters"%string, CountValue (total_boosters latest));
            ("Fully Vaccinated %"%string,
             PercentValue (people_fully_vaccinated_per_hundred latest)) ].
Proof.
  apply (metrics_from_latest_row sample_inputs "Total Vaccinations" (CountValue 400)).
  do 7 right. left. reflexivity.
Defined.

(** ** Narrowing the date range *)

Lemma filter_ext_in_list {A : Type} (p q : A -> bool) (l : list A) :
  (forall x : A, In x l -> p x = q x) -> filter p l = filter q l.
Proof.
  induction l as [|x l IH]; simpl; [reflexivity|]. intros H.
  rewrite (H x) by now left. rewrite IH; [reflexivity|].
  intros y Hy. apply H. now right.
Qed.

(** X16.  Narrowing the date range gives what filtering the earlier result by
    the narrower range gives: the rows kept are among those of the wider
    range, in the same order. *)
Theorem narrower_range_refilters (df : DataFrame) (selected_option : string)
    (start_date end_date start_date' end_date' : Z) :
  start_date' <= start_date ->
  end_date <= end_date' ->
  filtered_df df selected_option start_date end_date
  = filter (date_mask start_date end_date)
           (filtered_df df selected_option start_date' end_date').
Proof.
  intros Hs He. unfold filtered_df.
  rewrite (filter_filter (date_mask start_date' end_date') (date_mask start_date end_date)).
  apply filter_ext_in_list. intros r _.
  unfold date_mask.
  destruct (Z.leb_spec start_date (dt_date (date r)));
    destruct (Z.leb_spec (dt_date (date r)) end_date);
    destruct (Z.leb_spec start_date' (dt_date (date r)));
    destruct (Z.leb_spec (dt_date (date r)) end_date');
    simpl; try reflexivity; lia.
Qed.

Lemma narrower_range_refilters_witness :
  filtered_df sample_df "Worldwide" 2 3
  = filter (date_mask 2 3) (filtered_df sample_df "Worldwide" 1 3).
Proof.
  apply (narrower_range_refilters sample_df "Worldwide" 2 3 1 3); lia.
Defined.

(** ** The progress bar on unusual coverage values (line 96) *)

Lemma SFcompare_refl_not_nan (x : spec_float) :
  x <> S754_nan -> SFcompare x x = Some Eq.
Proof.
  destruct x as [[|]|[|]| |[|] m e]; intros H; try reflexivity; try congruence;
    simpl; now rewrite Z.compare_refl, Pos.compare_cont_refl.
Qed.

Lemma is_nan_Prim2SF (x : float) :
  PrimFloat.is_nan x = true -> Prim2SF x = S754_nan.
Proof.
  unfold PrimFloat.is_nan. rewrite negb_true_iff, eqb_spec. unfold SFeqb.
  intros H. destruct (Prim2SF x) as [s|s| |s m e] eqn:Hx; [| |reflexivity|];
    rewrite SFcompare_refl_not_nan in H; discriminate.
Qed.

Lemma progress_arg_of_nan (coverage : float) :
  PrimFloat.is_nan (PrimFloat.div coverage 100) = true ->
  progress_arg coverage = PrimFloat.div coverage 100.
Proof.
  intros Hnan. unfold progress_arg, py_min. rewrite ltb_spec.
  rewrite (is_nan_Prim2SF _ Hnan). unfold SFltb.
  destruct (Prim2SF 1) as [[|]|[|]| |[|] m e]; reflexivity.
Qed.

(** X17.  A coverage whose hundredth is not a number is not replaced by the
    cap: the progress bar receives the NaN itself. *)
Theorem progress_passes_nan (coverage : float) :
  PrimFloat.is_nan (PrimFloat.div coverage 100) = true ->
  progress_arg coverage = PrimFloat.div coverage 100
  /\ PrimFloat.is_nan (progress_arg coverage) = true.
Proof.
  intros Hnan. rewrite (progress_arg_of_nan coverage Hnan). now split.
Qed.

Lemma progress_passes_nan_witness :
  progress_arg PrimFloat.nan = PrimFloat.div PrimFloat.nan 100
  /\ PrimFloat.is_nan (progress_arg PrimFloat.nan) = true.
Proof.
  apply (progress_passes_nan PrimFloat.nan). reflexivity.
Defined.

(** X18.  Whatever the data, the value a run hands to the progress bar is a
    NaN or is at most 1.0. *)
Theorem progress_nan_or_at_most_one (i : Inputs) (x : float) :
  In (st_progress x) (trace (app i)) ->
  PrimFloat.is_nan x = true \/ PrimFloat.leb x 1 = true.
Proof.
  intros Hin.
  destruct (progress_call i x Hin) as (df & latest & _ & _ & ->).
  destruct (PrimFloat.is_nan
              (PrimFloat.div (people_fully_vaccinated_per_hundred latest) 100)) eqn:Hnan.
  - left. now rewrite progress_arg_of_nan.
  - right. now apply progress_arg_at_most_one.
Qed.

Lemma progress_nan_or_at_most_one_witness :
  PrimFloat.is_nan 0.5%float = true \/ PrimFloat.leb 0.5%float 1 = true.
Proof.
  apply (progress_nan_or_at_most_one
           (mkInputs (ReadOk [sample_row "Peru" 1 10 50%float]) "Peru" (1, 1))
           0.5%float).
  do 11 right. left. reflexivity.
Defined.

(** ** The comparison chart (lines 129-143) *)

(** X19.  The comparison chart of a run has exactly two bars, people
    vaccinated and people fully vaccinated in that order, both read from the
    row the metric cards show and labelled with its location. *)
Theorem comparison_chart_from_latest_row (i : Inputs) (melted : list MeltedRow)
    (title_option : string) :
  In (st_plotly_chart (px_bar_metric melted title_option)) (trace (app i)) ->
  title_option = selectbox_value i
  /\ exists (df : DataFrame) (latest : Row),
       read_parquet i = ReadOk df
       /\ latest_data (run_filtered i df) = Some latest
       /\ melted
          = [ mkMelted (location latest) "people_vaccinated" (people_vaccinated latest);
              mkMelted (location latest) "people_fully_vaccinated"
                       (people_fully_vaccinated latest) ].
Proof.
  intros Hin.
  destruct (read_parquet i) as [df|e] eqn:Hread.
  - destruct (latest_data (run_filtered i df)) as [latest|] eqn:Hl.
    + rewrite (app_nonempty_filter i df latest Hread Hl) in Hin.
      rewrite trace_pair in Hin. apply in_app_or in Hin as [Hin|Hin].
      * simpl in Hin.
        repeat (destruct Hin as [Hin|Hin]; [try discriminate Hin|]);
          try contradiction.
        injection Hin as <- <-. split; [reflexivity|]. now exists df, latest.
      * rewrite global_view_tab_trace in Hin.
        destruct (String.eqb (selectbox_value i) "Worldwide"); simpl in Hin;
          repeat (destruct Hin as [Hin|Hin]; [discriminate Hin|]); contradiction.
    + apply iloc_last_none in Hl.
      rewrite (app_empty_filter i df Hread Hl) in Hin. simpl in Hin.
      repeat (destruct Hin as [Hin|Hin]; [discriminate Hin|]). contradiction.
  - destruct (not_FileNotFoundError_dec e) as [->|He].
    + rewrite (app_missing_file i Hread) in Hin. simpl in Hin.
      repeat (destruct Hin as [Hin|Hin]; [discriminate Hin|]). contradiction.
    + rewrite (app_read_error i e Hread He) in Hin. simpl in Hin.
      repeat (destruct Hin as [Hin|Hin]; [discriminate Hin|]). contradiction.
Qed.

Lemma comparison_chart_from_latest_row_witness :
  "Worldwide"%string = selectbox_value sample_inputs
  /\ exists (df : DataFrame) (latest : Row),
       read_parquet sample_inputs = ReadOk df
       /\ latest_data (run_filtered sample_inputs df) = Some latest
       /\ [ mkMelted "World" "people_vaccinated" 400;
            mkMelted "World" "people_fully_vaccinated" 0 ]
          = [ mkMelted (location latest) "people_vaccinated" (people_vaccinated latest);
              mkMelted (location latest) "people_fully_vaccinated"
                       (people_fully_vaccinated latest) ].
Proof.
  apply (comparison_chart_from_latest_row sample_inputs
           [ mkMelted "World" "people_vaccinated" 400;
             mkMelted "World" "people_fully_vaccinated" 0 ]
           "Worldwide").
  do 18 right. left. reflexivity.
Defined.

(** ** The error message (lines 19-23) *)

(** X20.  The error message appears in a run exactly when the data file is
    missing; a run whose file loads never shows it, and neither does one that
    ends in another exception. *)
Theorem error_iff_missing_file (i : Inputs) (msg : string) :
  In (st_error msg) (trace (app i))
  <-> msg = "Data file not found. Please run the data preparation notebook first."%string
      /\ read_parquet i = ReadRaises FileNotFoundError.
Proof.
  by_run_shape i.
  - split.
    + simpl. intros [H|[H|[]]]; [discriminate H|]. injection H as <-. now split.
    + intros [-> _]. simpl. right. now left.
  - split; [simpl; intros [H|[]]; discriminate H|]. intros [_ H]. congruence.
  - split; [|intros [_ H]; congruence]. simpl. intros H.
    repeat (destruct H as [H|H]; [discriminate H|]). contradiction.
  - split; [|intros [_ H]; congruence]. intros H.
    apply in_app_or in H as [H|H].
    + rewrite Forall_forall in Hmsg. now destruct (Hmsg _ H msg) as (_ & ? & _).
    + rewrite global_view_tab_trace in H.
      destruct (String.eqb (selectbox_value i) "Worldwide"); simpl in H;
        repeat (destruct H as [H|H]; [discriminate H|]); contradiction.
Qed.
